(** * fitbit_cheat: the Runner (fitbit_host.py) and the Authorizer
      (fitbit_login.py), embedded as state-and-exception passing programs.

    Both scripts are linear sequences of file reads and writes, clock
    reads, HTTP calls and prints.  The embedding threads an explicit
    state (file system, counters of clock reads and network calls, event
    log) through a small state-and-exception monad; everything outside the
    process (clock, remote API, browser callback) is supplied by a
    [World], and so are the few answers of the interpreter's library that
    depend on its version. *)

From Stdlib Require Import ZArith List String Ascii Bool Lia.
From Stdlib Require Import Numbers.DecimalString.
From Stdlib Require Import Floats.PrimFloat Floats.SpecFloat Floats.FloatOps.
From stdpp Require Import gmap strings.

Import ListNotations.
Open Scope string_scope.
Open Scope Z_scope.

#[local] Set Warnings "-register-all".

(** ** Python values

    The values that [json.load] / [r.json()] produce and that the scripts
    pass around.  A dict is kept as its items in insertion order (the
    order [json.dump] writes them in); lookup takes the first item with
    the key.  Strings are byte strings: the UTF-8 encoding of the Python
    text. *)

Inductive pyval : Type :=
| PNone
| PBool (b : bool)
| PInt (n : Z)
| PFloat (f : float)
| PStr (s : string)
| PList (l : list pyval)
| PDict (d : list (string * pyval)).

Module Py.

(** Exceptions.  [SystemExit] is a [BaseException]; every other exception
    the scripts can meet derives from [Exception] and is recorded by its
    class name. *)
Inductive exit_arg : Type :=
| ExitCode (n : Z)          (* raise SystemExit(1)        *)
| ExitMsg (msg : string).   (* raise SystemExit("text")   *)

Inductive exn : Type :=
| SystemExit (a : exit_arg)
| Exception (cls : string).

Inductive result (A : Type) : Type :=
| Ok (a : A)
| Raise (e : exn).
Arguments Ok {A} a.
Arguments Raise {A} e.

Fixpoint dict_get (k : string) (d : list (string * pyval)) : option pyval :=
  match d with
  | [] => None
  | (k', v) :: d' => if String.eqb k k' then Some v else dict_get k d'
  end.

Definition keys (d : list (string * pyval)) : list string := map fst d.

(** [v[k]] for a string key [k]. *)
Definition getitem (v : pyval) (k : string) : result pyval :=
  match v with
  | PDict d => match dict_get k d with
               | Some x => Ok x
               | None => Raise (Exception "KeyError")
               end
  | _ => Raise (Exception "TypeError")
  end.

(** [v.get(k, dflt)]: only dicts have the method. *)
Definition get (v : pyval) (k : string) (dflt : pyval) : result pyval :=
  match v with
  | PDict d => Ok (match dict_get k d with Some x => x | None => dflt end)
  | _ => Raise (Exception "AttributeError")
  end.

Fixpoint is_substring (k s : string) : bool :=
  String.prefix k s ||
  match s with
  | EmptyString => false
  | String _ s' => is_substring k s'
  end.

Definition is_str (k : string) (v : pyval) : bool :=
  match v with
  | PStr s => String.eqb k s
  | _ => false
  end.

(** [k in v] for a string [k]: key test on a dict, element test on a
    list, substring test on a string, [TypeError] on the rest. *)
Definition contains (k : string) (v : pyval) : result bool :=
  match v with
  | PDict d => Ok (match dict_get k d with Some _ => true | None => false end)
  | PList l => Ok (existsb (is_str k) l)
  | PStr s => Ok (is_substring k s)
  | _ => Raise (Exception "TypeError")
  end.

(** *** [int(v)] *)

(** The blanks [int] skips around the digits of an ASCII string: \t, \n,
    \v, \f, \r and the space. *)
Definition is_space (c : ascii) : bool :=
  let n := nat_of_ascii c in
  ((9 <=? n)%nat && (n <=? 13)%nat) || (n =? 32)%nat.

Definition digit_of (c : ascii) : option Z :=
  let n := nat_of_ascii c in
  if ((48 <=? n)%nat && (n <=? 57)%nat) then Some (Z.of_nat n - 48) else None.

Fixpoint lstrip (l : list ascii) : list ascii :=
  match l with
  | c :: l' => if is_space c then lstrip l' else l
  | [] => []
  end.

Definition strip (l : list ascii) : list ascii :=
  rev (lstrip (rev (lstrip l))).

(** Decimal digits, single underscores allowed between two digits.
    [prev] tells whether the previous character was a digit. *)
Fixpoint digits_value (acc : Z) (prev : bool) (l : list ascii) : option Z :=
  match l with
  | [] => if prev then Some acc else None
  | c :: l' =>
      match digit_of c with
      | Some d => digits_value (10 * acc + d) true l'
      | None =>
          if Ascii.eqb c "_" && prev then digits_value acc false l' else None
      end
  end.

(** [int(s)] for an ASCII string [s], base 10: blanks at both ends are
    skipped, then an optional sign and the digits must fill the rest. *)
Definition int_of_ascii (s : string) : option Z :=
  match strip (list_ascii_of_string s) with
  | "-"%char :: l => option_map Z.opp (digits_value 0 false l)
  | "+"%char :: l => digits_value 0 false l
  | l => digits_value 0 false l
  end.

Definition is_ascii (c : ascii) : bool := (nat_of_ascii c <? 128)%nat.

(** The strings [int_of_ascii] settles: ASCII only, and of at most 640
    characters, below every limit an interpreter puts on the number of
    digits (4300 by default, never configured under 640). *)
Definition plain (s : string) : bool :=
  forallb is_ascii (list_ascii_of_string s) && (String.length s <=? 640)%nat.

(** [int(s)].  For the other strings (text that is not ASCII, whose
    blanks and digits the interpreter's Unicode tables decide, and very
    long text) the answer is the interpreter's, given by [other]; [None]
    stands for ValueError. *)
Definition int_of_str (other : string -> option Z) (s : string) : option Z :=
  if plain s then int_of_ascii s else other s.

(** [int(f)]: truncation toward zero; no integer for nan and the
    infinities. *)
Definition int_of_float (f : float) : result Z :=
  match Prim2SF f with
  | S754_zero _ => Ok 0
  | S754_finite s m e =>
      let a := if 0 <=? e then Z.pos m * 2 ^ e else Z.pos m / 2 ^ (- e) in
      Ok (if s then - a else a)
  | S754_infinity _ => Raise (Exception "OverflowError")
  | S754_nan => Raise (Exception "ValueError")
  end.

Definition int (other : string -> option Z) (v : pyval) : result Z :=
  match v with
  | PInt n => Ok n
  | PBool b => Ok (if b then 1 else 0)
  | PFloat f => int_of_float f
  | PStr s => match int_of_str other s with
              | Some n => Ok n
              | None => Raise (Exception "ValueError")
              end
  | _ => Raise (Exception "TypeError")
  end.

(** *** Floats (binary64) *)

(** [float(n)] as done implicitly by [n * 0.0008]: round to nearest, ties
    to even; integers that would round to 2^1024 raise [OverflowError]. *)
Definition float_of_int (n : Z) : option float :=
  if 2 ^ 1024 - 2 ^ 970 <=? Z.abs n then None
  else Some (SF2Prim (binary_normalize prec emax n 0 false)).

(** Nearest integer to [num / den] ([den > 0]), ties to even. *)
Definition div_half_even (num den : Z) : Z :=
  let q := num / den in
  let r := num mod den in
  if 2 * r <? den then q
  else if den <? 2 * r then q + 1
  else if Z.even q then q else q + 1.

(** [round(x, ndigits)] for [0 <= ndigits]: the exact binary value of [x]
    is rounded, ties to even, to [ndigits] decimals, and that decimal is
    converted back to the nearest float. *)
Definition round (x : float) (ndigits : Z) : float :=
  match Prim2SF x with
  | S754_finite s m e =>
      let num := Z.pos m * 10 ^ ndigits * (if 0 <=? e then 2 ^ e else 1) in
      let den := if 0 <=? e then 1 else 2 ^ (- e) in
      match div_half_even num den with
      | Z.pos n =>
          SF2Prim (SFdiv prec emax (S754_finite s n 0)
                     (S754_finite false (Z.to_pos (10 ^ ndigits)) 0))
      | _ => SF2Prim (S754_zero s)
      end
  | _ => x
  end.

(** [str(n)] of an integer. *)
Definition str_of_int (n : Z) : string := NilZero.string_of_int (Z.to_int n).

End Py.

(** ** Files, symbolic text, HTTP messages *)

(** What a file holds: the JSON serialisation of a value (what
    [json.dump] writes and [json.load] reads back), or text that is not
    JSON. *)
Inductive content : Type :=
| Json (v : pyval)
| Garbled (raw : string).

(** Formatted text is kept symbolic where Python formats a value:
    [Str v] stands for [str(v)], [B64 t] for the base64 of [t],
    [UrlEncode d] for [urlencode(d)], [Text c] for a response's [r.text],
    [ExnStr cls] for the message of a caught exception, and [Cat parts]
    for one string put together from [parts] (an f-string, or [+] on
    strings). *)
Inductive chunk : Type :=
| Lit (s : string)
| Str (v : pyval)
| B64 (t : list chunk)
| UrlEncode (d : list (string * pyval))
| Text (c : content)
| ExnStr (cls : string)
| Cat (parts : list chunk).

Fixpoint render_chunk (c : chunk) : option string :=
  match c with
  | Lit s => Some s
  | Str (PStr s) => Some s
  | Str (PInt n) => Some (Py.str_of_int n)
  | Str PNone => Some "None"
  | Str (PBool b) => Some (if b then "True" else "False")
  | Text (Garbled raw) => Some raw
  | Cat parts =>
      (fix join (l : list chunk) : option string :=
         match l with
         | [] => Some ""
         | p :: l' =>
             match render_chunk p, join l' with
             | Some a, Some b => Some (a ++ b)
             | _, _ => None
             end
         end) parts
  | _ => None
  end.

(** The line that [print(a1, ..., an)] writes: the rendered arguments
    joined by single spaces (when every argument has a rendering here). *)
Fixpoint render_line (args : list chunk) : option string :=
  match args with
  | [] => Some ""
  | [c] => render_chunk c
  | c :: rest =>
      match render_chunk c, render_line rest with
      | Some a, Some b => Some (a ++ " " ++ b)
      | _, _ => None
      end
  end.

Inductive method : Type := GET | POST.

(** A header's value is the string its chunks make up, one after the
    other. *)
Record request : Type := {
  meth : method;
  url : string;
  headers : list (string * list chunk);
  form : list (string * pyval)
}.

Record response : Type := {
  status_code : Z;
  body : content
}.

(** [datetime.utcnow()], seen through the two formats the scripts use. *)
Record datetime : Type := {
  isoformat : string;       (* .isoformat()            *)
  ymd : string              (* .strftime('%Y-%m-%d')   *)
}.

(** What the Authorizer's one-shot listener sees within its 300 s.  The
    server reads the request line as iso-8859-1, so [path] holds the
    handler's [self.path] with one byte for each character. *)
Inductive inbound : Type :=
| BindError                     (* HTTPServer(...) raised              *)
| Silence                       (* no GET reached the handler in time  *)
| GetRequest (path : string).   (* do_GET ran once, with this self.path *)

(** Everything the scripts do not fix themselves.  The clock and the
    network are indexed by the number of earlier reads / calls of the
    run.  The last two fields are the installed interpreter's answers
    where they depend on its version or its Unicode tables: [int] on
    the strings [Py.plain] leaves out, and [urlparse(...).query] on the
    request targets that the versions of the library treat differently
    ([None]: ValueError). *)
Record World : Type := {
  utcnow_at : nat -> datetime;
  send : nat -> request -> option response;   (* None: requests raises *)
  listener : inbound;
  int_of_text : string -> option Z;
  query_of_target : string -> option string
}.

Inductive event : Type :=
| Net (r : request)
| Printed (args : list chunk)
| Wrote (path : string) (v : pyval)
| Browser (target : chunk).

Record State : Type := {
  fs : gmap string content;
  clock : nat;
  calls : nat;
  log : list event
}.

Definition initial (files : gmap string content) : State :=
  {| fs := files; clock := 0; calls := 0; log := [] |}.

(** ** The state-and-exception monad *)

Import Py.

Definition M (A : Type) : Type := State -> result A * State.

Definition ret {A} (a : A) : M A := fun s => (Ok a, s).
Definition raise {A} (e : exn) : M A := fun s => (Raise e, s).
Definition bind {A B} (m : M A) (k : A -> M B) : M B :=
  fun s => match m s with
           | (Ok a, s') => k a s'
           | (Raise e, s') => (Raise e, s')
           end.
Definition lift {A} (r : result A) : M A := fun s => (r, s).

Notation "x <- m ;; k" := (bind m (fun x => k))
  (at level 100, m at next level, right associativity).
Notation "m ;; k" := (bind m (fun _ => k))
  (at level 100, right associativity).

Definition emit (e : event) : M unit :=
  fun s => (Ok tt, {| fs := fs s; clock := clock s; calls := calls s;
                      log := log s ++ [e] |}).

Definition print (args : list chunk) : M unit := emit (Printed args).

Definition path_exists (path : string) : M bool :=
  fun s => (Ok (match fs s !! path with Some _ => true | None => false end), s).

(** [with open(path, "r") as f: json.load(f)] *)
Definition json_load (path : string) : M pyval :=
  fun s => match fs s !! path with
           | Some (Json v) => (Ok v, s)
           | Some (Garbled _) => (Raise (Exception "JSONDecodeError"), s)
           | None => (Raise (Exception "FileNotFoundError"), s)
           end.

(** [with open(path, "w") as f: json.dump(v, f, indent=2)] *)
Definition json_dump (path : string) (v : pyval) : M unit :=
  fun s => (Ok tt, {| fs := <[path := Json v]> (fs s); clock := clock s;
                      calls := calls s; log := log s ++ [Wrote path v] |}).

Definition utcnow (W : World) : M datetime :=
  fun s => (Ok (utcnow_at W (clock s)),
            {| fs := fs s; clock := S (clock s); calls := calls s;
               log := log s |}).

(** [requests.get] / [requests.post]: the call is logged, then the world
    answers or the library raises. *)
Definition requests_send (W : World) (r : request) : M response :=
  fun s =>
    let s' := {| fs := fs s; clock := clock s; calls := S (calls s);
                 log := log s ++ [Net r] |} in
    match send W (calls s) r with
    | Some resp => (Ok resp, s')
    | None => (Raise (Exception "RequestException"), s')
    end.

(** [r.json()] *)
Definition response_json (r : response) : M pyval :=
  match body r with
  | Json v => ret v
  | Garbled _ => raise (Exception "JSONDecodeError")
  end.

Definition CONFIG_FILE : string := "fitbit_config.json".
Definition TOKEN_FILE : string := "fitbit_tokens.json".

(** ** fitbit_host.py: the Runner *)

Module Host.

(** The attributes of a [FitbitHost] instance. *)
Record FitbitHost : Type := {
  client_id : pyval;
  client_secret : pyval;
  daily_steps : Z;
  start_time : pyval;
  access_token : pyval;
  refresh_token : pyval;
  token_url : string;
  base_api : string
}.

Definition set_tokens (h : FitbitHost) (a r : pyval) : FitbitHost :=
  {| client_id := client_id h; client_secret := client_secret h;
     daily_steps := daily_steps h; start_time := start_time h;
     access_token := a; refresh_token := r;
     token_url := token_url h; base_api := base_api h |}.

(** [load_config]: the four attributes it sets, in order. *)
Definition load_config (W : World) : M (pyval * pyval * Z * pyval) :=
  present <- path_exists CONFIG_FILE ;;
  if negb present then
    raise (SystemExit (ExitMsg
      (CONFIG_FILE ++ " missing. Provide client_id and client_secret.")))
  else
    cfg <- json_load CONFIG_FILE ;;
    cid <- lift (getitem cfg "client_id") ;;
    csec <- lift (getitem cfg "client_secret") ;;
    ds <- lift (get cfg "daily_steps" (PInt 10000)) ;;
    steps <- lift (int (int_of_text W) ds) ;;
    st <- lift (get cfg "start_time" (PStr "08:00")) ;;
    ret (cid, csec, steps, st).

(** [load_tokens]: the two attributes it sets. *)
Definition load_tokens : M (pyval * pyval) :=
  present <- path_exists TOKEN_FILE ;;
  if negb present then
    raise (SystemExit (ExitMsg
      (TOKEN_FILE ++ " missing. Upload tokens obtained from login script.")))
  else
    t <- json_load TOKEN_FILE ;;
    a <- lift (get t "access_token" PNone) ;;
    r <- lift (get t "refresh_token" PNone) ;;
    ret (a, r).

(** [FitbitHost.__init__] *)
Definition init (W : World) : M FitbitHost :=
  c <- load_config W ;;
  t <- load_tokens ;;
  let '(cid, csec, steps, st) := c in
  let '(a, r) := t in
  ret {| client_id := cid; client_secret := csec; daily_steps := steps;
         start_time := st; access_token := a; refresh_token := r;
         token_url := "https://api.fitbit.com/oauth2/token";
         base_api := "https://api.fitbit.com/1/user/-" |}.

(** The record [save_tokens] writes. *)
Definition token_record (a r : pyval) (now : datetime) : pyval :=
  PDict [("access_token", a);
         ("refresh_token", r);
         ("updated_at", PStr (isoformat now ++ "Z"))].

Definition save_tokens (W : World) (h : FitbitHost) (a r : pyval)
  : M FitbitHost :=
  now <- utcnow W ;;
  json_dump TOKEN_FILE (token_record a r now) ;;
  print [Lit ("Updated " ++ TOKEN_FILE)] ;;
  ret (set_tokens h a r).

Definition bearer (token : pyval) : list chunk := [Lit "Bearer "; Str token].

Definition basic (h : FitbitHost) : list chunk :=
  [Lit "Basic "; B64 [Str (client_id h); Lit ":"; Str (client_secret h)]].

Definition probe_request (h : FitbitHost) (now : datetime) : request :=
  {| meth := GET;
     url := base_api h ++ "/activities/date/" ++ ymd now ++ ".json";
     headers := [("Authorization", bearer (access_token h))];
     form := [] |}.

Definition refresh_request (h : FitbitHost) : request :=
  {| meth := POST;
     url := token_url h;
     headers := [("Authorization", basic h);
                 ("Content-Type", [Lit "application/x-www-form-urlencoded"])];
     form := [("grant_type", PStr "refresh_token");
              ("refresh_token", refresh_token h)] |}.

Definition refresh_access_token (W : World) (h : FitbitHost)
  : M (bool * FitbitHost) :=
  r <- requests_send W (refresh_request h) ;;
  if negb (status_code r =? 200) then
    print [Lit "Refresh failed:"; Str (PInt (status_code r)); Text (body r)] ;;
    ret (false, h)
  else
    jd <- response_json r ;;
    a <- lift (getitem jd "access_token") ;;
    rt <- lift (get jd "refresh_token" PNone) ;;
    h' <- save_tokens W h a rt ;;
    ret (true, h').

Definition refresh_if_needed (W : World) (h : FitbitHost)
  : M (bool * FitbitHost) :=
  now <- utcnow W ;;
  r <- requests_send W (probe_request h now) ;;
  if status_code r =? 401 then refresh_access_token W h
  else ret (true, h).

(** The float literal [0.0008] (the binary64 nearest to it). *)
Definition km_per_step : float := 0x1.a36e2eb1c432dp-11%float.

Definition duration_minutes (steps : Z) : Z := Z.max (steps / 100) 1.

(** [round(steps * 0.0008, 3)]; [None] when [float(steps)] overflows. *)
Definition distance (steps : Z) : option float :=
  match float_of_int steps with
  | Some f => Some (round (PrimFloat.mul f km_per_step) 3)
  | None => None
  end.

(** The form [log_steps] posts. *)
Definition activity_data (steps : Z) (date : string) (start : pyval)
  (dist : float) : list (string * pyval) :=
  [("activityId", PInt 90013);
   ("startTime", start);
   ("durationMillis", PInt (duration_minutes steps * 60 * 1000));
   ("date", PStr date);
   ("distance", PFloat dist);
   ("steps", PInt steps)].

Definition activity_request (h : FitbitHost) (token : pyval)
  (data : list (string * pyval)) : request :=
  {| meth := POST;
     url := base_api h ++ "/activities.json";
     headers := [("Authorization", bearer token);
                 ("Content-Type", [Lit "application/x-www-form-urlencoded"])];
     form := data |}.

(** The tail of [log_steps], from [if r.status_code not in (200, 201)]. *)
Definition log_outcome (h : FitbitHost) (steps : Z) (date : string)
  (r : response) : M (bool * FitbitHost) :=
  if negb ((status_code r =? 200) || (status_code r =? 201)) then
    print [Lit "Log failed:"; Str (PInt (status_code r)); Text (body r)] ;;
    ret (false, h)
  else
    jd <- response_json r ;;
    print [Lit "Logged steps:"; Str (PInt steps); Lit "date:"; Lit date] ;;
    has_log <- lift (contains "activityLog" jd) ;;
    (if has_log then
       al <- lift (getitem jd "activityLog") ;;
       has_id <- lift (contains "logId" al) ;;
       if has_id then
         id <- lift (getitem al "logId") ;;
         print [Lit "logId:"; Str id]
       else ret tt
     else ret tt) ;;
    ret (true, h).

(** The body of [log_steps] once its three defaults are resolved: build
    the form data, post it, refresh and post again after a 401. *)
Definition submit (W : World) (h : FitbitHost)
  (steps : Z) (date : string) (start : pyval) : M (bool * FitbitHost) :=
  match distance steps with
  | None => raise (Exception "OverflowError")
  | Some dist =>
      let data := activity_data steps date start dist in
      r <- requests_send W (activity_request h (access_token h) data) ;;
      if status_code r =? 401 then
        print [Lit "Token expired, refreshing..."] ;;
        rf <- refresh_access_token W h ;;
        let '(ok, h') := rf in
        if negb ok then ret (false, h')
        else
          r2 <- requests_send W (activity_request h' (access_token h') data) ;;
          log_outcome h' steps date r2
      else log_outcome h steps date r
  end.

Definition log_steps (W : World) (h : FitbitHost)
  (steps : option Z) (date : option string) (start : option pyval)
  : M (bool * FitbitHost) :=
  let steps := match steps with Some n => n | None => daily_steps h end in
  date <- match date with
          | Some d => ret d
          | None => now <- utcnow W ;; ret (ymd now)
          end ;;
  let start := match start with Some t => t | None => start_time h end in
  submit W h steps date start.

Definition main (W : World) : M unit :=
  h <- init W ;;
  now <- utcnow W ;;
  print [Lit "Running at"; Lit (isoformat now ++ "Z")] ;;
  rf <- refresh_if_needed W h ;;
  let '(ok, h) := rf in
  if negb ok then print [Lit "Token refresh/check failed."]
  else
    ls <- log_steps W h None None None ;;
    if fst ls then print [Lit "Done."] else print [Lit "Failed."].

End Host.

(** ** Process exit status *)

(** The status the interpreter exits with: 0 after a normal return, the
    integer given to [SystemExit], 1 for [SystemExit] with a message and
    for an uncaught exception. *)
Definition exit_status {A} (r : result A) : Z :=
  match r with
  | Ok _ => 0
  | Raise (SystemExit (ExitCode n)) => n
  | Raise (SystemExit (ExitMsg _)) => 1
  | Raise (Exception _) => 1
  end.

(** ** fitbit_login.py: the Authorizer *)

Module Login.

(** *** The callback handler *)

(** [s.split(c, 1)] when [c] occurs in [s]: the text before and after the
    first [c]. *)
Fixpoint cut (c : ascii) (s : string) : option (string * string) :=
  match s with
  | EmptyString => None
  | String a s' =>
      if Ascii.eqb a c then Some (EmptyString, s')
      else match cut c s' with
           | Some (l, r) => Some (String a l, r)
           | None => None
           end
  end.

(** [s.split(c)] *)
Fixpoint split (c : ascii) (s : string) : list string :=
  match s with
  | EmptyString => [EmptyString]
  | String a s' =>
      if Ascii.eqb a c then EmptyString :: split c s'
      else match split c s' with
           | f :: fs => String a f :: fs
           | [] => [String a EmptyString]
           end
  end.

Definition has (c : ascii) (s : string) : bool :=
  match cut c s with
  | Some _ => true
  | None => false
  end.

(** **** [urlparse(self.path).query] *)

Definition is_alpha (c : ascii) : bool :=
  let n := nat_of_ascii c in
  (((65 <=? n) && (n <=? 90)) || ((97 <=? n) && (n <=? 122)))%nat.

(** [c in scheme_chars]: letters, digits, [+], [-] and [.]. *)
Definition scheme_char (c : ascii) : bool :=
  let n := nat_of_ascii c in
  is_alpha c || ((48 <=? n) && (n <=? 57))%nat ||
  Ascii.eqb c "+" || Ascii.eqb c "-" || Ascii.eqb c ".".

(** The targets [urlsplit] takes as they are in every version of the
    library: no \t, \r or \n (removed by the later versions) and no
    leading control character or blank (stripped by the latest). *)
Definition untrimmed (path : string) : bool :=
  negb (has "009" path || has "010" path || has "013" path) &&
  match path with
  | String c _ => (32 <? nat_of_ascii c)%nat
  | EmptyString => true
  end.

(** The scheme is split off at the first colon when everything before it
    is made of scheme characters: the rest of the url is returned, or the
    url itself when there is no scheme.  [None]: the versions differ
    (scheme characters only, but not starting with a letter). *)
Definition after_scheme (url : string) : option string :=
  match cut ":" url with
  | Some (String c pre, rest) =>
      if forallb scheme_char (list_ascii_of_string (String c pre)) then
        if is_alpha c then Some rest else None
      else Some url
  | _ => Some url
  end.

(** [_splitnetloc(url, 2)], given the text after the two slashes: the
    netloc ends before the first of [/], [?] and [#]. *)
Fixpoint splitnetloc (s : string) : string * string :=
  match s with
  | EmptyString => (EmptyString, EmptyString)
  | String c s' =>
      if Ascii.eqb c "/" || Ascii.eqb c "?" || Ascii.eqb c "#"
      then (EmptyString, s)
      else let (netloc, rest) := splitnetloc s' in (String c netloc, rest)
  end.

(** The fragment is split off at the first [#], then the query at the
    first [?]. *)
Definition query_part (url : string) : string :=
  let before_fragment :=
    match cut "#" url with Some (u, _) => u | None => url end in
  match cut "?" before_fragment with
  | Some (_, q) => q
  | None => EmptyString
  end.

Inductive verdict : Type :=
| Query (q : string)    (* urlparse returns; this is the query      *)
| Invalid               (* urlparse raises ValueError               *)
| Unsettled.            (* the versions of the library do not agree *)

(** What [urlsplit] does with a target, as far as its versions agree:
    a netloc with one kind of square bracket only is rejected ("Invalid
    IPv6 URL"); one with both kinds, or with characters that are not
    ASCII, goes through checks that changed over time. *)
Definition urlsplit_query (path : string) : verdict :=
  if negb (untrimmed path) then Unsettled
  else
    match after_scheme path with
    | None => Unsettled
    | Some (String "/" (String "/" rest)) =>
        let (netloc, url) := splitnetloc rest in
        match has "[" netloc, has "]" netloc with
        | true, false | false, true => Invalid
        | true, true => Unsettled
        | false, false =>
            if forallb is_ascii (list_ascii_of_string netloc)
            then Query (query_part url)
            else Unsettled
        end
    | Some url => Query (query_part url)
    end.

(** [urlparse(path).query]; [None] when [urlparse] raises. *)
Definition urlparse_query (W : World) (path : string) : option string :=
  match urlsplit_query path with
  | Query q => Some q
  | Invalid => None
  | Unsettled => query_of_target W path
  end.

(** A request target in origin form: [/path?query], not starting with
    two slashes. *)
Definition origin_form (path : string) : bool :=
  match path with
  | String "/" (String "/" _) => false
  | String "/" _ => true
  | _ => false
  end.

(** **** [unquote] *)

Definition hex_digit (c : ascii) : option nat :=
  let n := nat_of_ascii c in
  if ((48 <=? n) && (n <=? 57))%nat then Some (n - 48)%nat
  else if ((65 <=? n) && (n <=? 70))%nat then Some (n - 55)%nat
  else if ((97 <=? n) && (n <=? 102))%nat then Some (n - 87)%nat
  else None.

(** [unquote_to_bytes]: each [%XX] with two hex digits becomes that byte;
    any other [%] stays. *)
Fixpoint unquote_to_bytes (s : string) : string :=
  match s with
  | EmptyString => EmptyString
  | String c s' =>
      if Ascii.eqb c "%" then
        match s' with
        | String a (String b rest) =>
            match hex_digit a, hex_digit b with
            | Some x, Some y =>
                String (ascii_of_nat (16 * x + y)) (unquote_to_bytes rest)
            | _, _ => String c (unquote_to_bytes s')
            end
        | _ => String c (unquote_to_bytes s')
        end
      else String c (unquote_to_bytes s')
  end.

(** U+FFFD, the replacement character, in UTF-8. *)
Definition replacement : string :=
  String "239" (String "191" (String "189" EmptyString)).

(** The UTF-8 decoder between two bytes: at a character boundary, or
    inside a character of which [seen] was read, [n] more bytes are due,
    and the next one has to lie in [lo..hi]. *)
Inductive utf8_state : Type :=
| Idle
| Need (n : nat) (seen : string) (lo hi : nat).

(** A byte at a character boundary.  80..C1 and F5..FF start nothing;
    E0, ED, F0 and F4 narrow the range of their second byte (no overlong
    forms, no surrogates, nothing above U+10FFFF). *)
Definition utf8_start (c : ascii) : string * utf8_state :=
  let n := nat_of_ascii c in
  let one := String c EmptyString in
  if (n <? 128)%nat then (one, Idle)
  else if (n <? 194)%nat then (replacement, Idle)
  else if (n <? 224)%nat then (EmptyString, Need 1 one 128 191)
  else if (n =? 224)%nat then (EmptyString, Need 2 one 160 191)
  else if (n =? 237)%nat then (EmptyString, Need 2 one 128 159)
  else if (n <? 240)%nat then (EmptyString, Need 2 one 128 191)
  else if (n =? 240)%nat then (EmptyString, Need 3 one 144 191)
  else if (n <? 244)%nat then (EmptyString, Need 3 one 128 191)
  else if (n =? 244)%nat then (EmptyString, Need 3 one 128 143)
  else (replacement, Idle).

(** One more byte: it completes or continues the character, or it does
    not fit; then what was read of the character is replaced and the
    byte is looked at afresh. *)
Definition utf8_feed (st : utf8_state) (c : ascii) : string * utf8_state :=
  match st with
  | Idle => utf8_start c
  | Need n seen lo hi =>
      let k := nat_of_ascii c in
      if ((lo <=? k) && (k <=? hi))%nat then
        match n with
        | S (S m) =>
            (EmptyString, Need (S m) (seen ++ String c EmptyString) 128 191)
        | _ => (seen ++ String c EmptyString, Idle)
        end
      else
        let (out, st') := utf8_start c in (replacement ++ out, st')
  end.

Fixpoint utf8_decode_from (st : utf8_state) (bytes : string) : string :=
  match bytes with
  | EmptyString =>
      match st with
      | Idle => EmptyString
      | Need _ _ _ _ => replacement
      end
  | String c rest =>
      let (out, st') := utf8_feed st c in out ++ utf8_decode_from st' rest
  end.

(** [bytes.decode('utf-8', 'replace')], the text written in UTF-8
    again: well-formed characters pass, every maximal ill-formed piece
    becomes U+FFFD. *)
Definition utf8_replace (bytes : string) : string :=
  utf8_decode_from Idle bytes.

(** The UTF-8 encoding of the character U+0000..U+00FF that a byte of
    [self.path] stands for. *)
Definition utf8_of_latin1 (c : ascii) : string :=
  let n := nat_of_ascii c in
  if (n <? 128)%nat then String c EmptyString
  else String (ascii_of_nat (192 + n / 64))
         (String (ascii_of_nat (128 + n mod 64)) EmptyString).

Fixpoint text_of_latin1 (s : string) : string :=
  match s with
  | EmptyString => EmptyString
  | String c s' => utf8_of_latin1 c ++ text_of_latin1 s'
  end.

(** [_asciire.split]: the maximal runs of ASCII characters ([true]) and
    of other characters ([false]), in order. *)
Fixpoint runs (s : string) : list (bool * string) :=
  match s with
  | EmptyString => []
  | String c s' =>
      match runs s' with
      | (a, r) :: rest =>
          if Bool.eqb (is_ascii c) a then (a, String c r) :: rest
          else (is_ascii c, String c EmptyString) :: (a, r) :: rest
      | [] => [(is_ascii c, String c EmptyString)]
      end
  end.

Definition unquote_run (r : bool * string) : string :=
  if fst r then utf8_replace (unquote_to_bytes (snd r))
  else text_of_latin1 (snd r).

(** [unquote(s)], with its defaults [encoding='utf-8'] and
    [errors='replace']: a string without [%] is returned as it is;
    otherwise the escapes of every ASCII run are turned into bytes and
    the run is decoded as UTF-8.  The argument has one byte for each
    character, the result is the text in UTF-8. *)
Definition unquote (s : string) : string :=
  if has "%" s
  then fold_right append EmptyString (map unquote_run (runs s))
  else text_of_latin1 s.

(** [s.replace('+', ' ')] *)
Fixpoint plus_to_space (s : string) : string :=
  match s with
  | EmptyString => EmptyString
  | String c s' =>
      String (if Ascii.eqb c "+" then " "%char else c) (plus_to_space s')
  end.

Definition decode (s : string) : string := unquote (plus_to_space s).

(** One [&]-separated field of the query, as [parse_qsl] reads it with
    its defaults: fields without [=] and fields with a blank value are
    dropped. *)
Definition parse_field (field : string) : option (string * string) :=
  match cut "=" field with
  | Some (name, value) =>
      if String.eqb value EmptyString then None
      else Some (decode name, decode value)
  | None => None
  end.

Fixpoint parse_fields (fields : list string) : list (string * string) :=
  match fields with
  | [] => []
  | f :: rest =>
      match parse_field f with
      | Some nv => nv :: parse_fields rest
      | None => parse_fields rest
      end
  end.

Definition parse_qsl (qs : string) : list (string * string) :=
  parse_fields (split "&" qs).

(** [parsed_result[name].append(value)] or [parsed_result[name] = [value]] *)
Fixpoint add_value (name value : string) (d : list (string * list string))
  : list (string * list string) :=
  match d with
  | [] => [(name, [value])]
  | (k, vs) :: d' =>
      if String.eqb name k then (k, (vs ++ [value])%list) :: d'
      else (k, vs) :: add_value name value d'
  end.

Definition parse_qs (qs : string) : list (string * list string) :=
  fold_left (fun d nv => add_value (fst nv) (snd nv) d) (parse_qsl qs) [].

Fixpoint lookup_values (name : string) (d : list (string * list string))
  : option (list string) :=
  match d with
  | [] => None
  | (k, vs) :: d' => if String.eqb name k then Some vs else lookup_values name d'
  end.

Record reply : Type := {
  reply_status : Z;
  reply_headers : list (string * string);
  reply_page : string
}.

Definition success_page : reply :=
  {| reply_status := 200;
     reply_headers := [("Content-Type", "text/html; charset=utf-8")];
     reply_page :=
       "<html><body><h2>Authorized. You can close this window.</h2></body></html>" |}.

Definition failure_page : reply :=
  {| reply_status := 400;
     reply_headers := [];
     reply_page := "<html><body><h2>No code found.</h2></body></html>" |}.

(** [CallbackHandler.do_GET]: the new value of the class attribute
    [auth_code] and what is sent back ([Raise]: the handler died before
    answering). *)
Definition do_GET (W : World) (path : string) (auth_code : option string)
  : option string * result reply :=
  match urlparse_query W path with
  | None => (auth_code, Raise (Exception "ValueError"))
  | Some query =>
      let qs := parse_qs query in
      match lookup_values "code" qs with
      | Some (v :: _) => (Some v, Ok success_page)
      | Some [] => (auth_code, Raise (Exception "IndexError"))
      | None => (auth_code, Ok failure_page)
      end
  end.

(** *** The main flow *)

Definition sample_config : pyval :=
  PDict [("client_id", PStr "YOUR_CLIENT_ID");
         ("client_secret", PStr "YOUR_CLIENT_SECRET");
         ("redirect_uri", PStr "http://127.0.0.1:8080/");
         ("scope", PStr "activity");
         ("default_port", PInt 8080)].

Definition load_config : M pyval :=
  present <- path_exists CONFIG_FILE ;;
  if negb present then
    json_dump CONFIG_FILE sample_config ;;
    print [Lit ("Created sample " ++ CONFIG_FILE ++
                ". Please edit it with your app credentials and run again.")] ;;
    raise (SystemExit (ExitCode 1))
  else json_load CONFIG_FILE.

Definition save_tokens (W : World) (data : pyval) : M unit :=
  a <- lift (getitem data "access_token") ;;
  r <- lift (get data "refresh_token" PNone) ;;
  sc <- lift (get data "scope" PNone) ;;
  tt_ <- lift (get data "token_type" PNone) ;;
  ex <- lift (get data "expires_in" PNone) ;;
  now <- utcnow W ;;
  json_dump TOKEN_FILE
    (PDict [("access_token", a);
            ("refresh_token", r);
            ("scope", sc);
            ("token_type", tt_);
            ("expires_in", ex);
            ("updated_at", PStr (isoformat now ++ "Z"))]) ;;
  print [Lit ("Saved tokens to " ++ TOKEN_FILE)].

Definition exchange_request (cid csec : pyval) (code : string)
  (redirect : pyval) : request :=
  {| meth := POST;
     url := "https://api.fitbit.com/oauth2/token";
     headers := [("Authorization",
                  [Lit "Basic "; B64 [Str cid; Lit ":"; Str csec]]);
                 ("Content-Type", [Lit "application/x-www-form-urlencoded"])];
     form := [("grant_type", PStr "authorization_code");
              ("code", PStr code);
              ("redirect_uri", redirect);
              ("client_id", cid)] |}.

(** [r.raise_for_status()] raises for the statuses 400 to 599. *)
Definition exchange_code_for_token (W : World) (cid csec : pyval)
  (code : string) (redirect : pyval) : M pyval :=
  r <- requests_send W (exchange_request cid csec code redirect) ;;
  if (400 <=? status_code r) && (status_code r <? 600)
  then raise (Exception "HTTPError")
  else response_json r.

(** [run_local_server] followed by [thread.join(timeout=300)]: the value
    of [CallbackHandler.auth_code] afterwards.  A handler that dies does
    so in the server's thread; the main thread goes on. *)
Definition await_callback (W : World) (port : pyval) : M (option string) :=
  match listener W with
  | BindError => raise (Exception "OSError")
  | Silence =>
      print [Cat [Lit "Waiting for redirect on http://127.0.0.1:"; Str port;
                  Lit "/ ..."]] ;;
      ret None
  | GetRequest path =>
      print [Cat [Lit "Waiting for redirect on http://127.0.0.1:"; Str port;
                  Lit "/ ..."]] ;;
      ret (fst (do_GET W path None))
  end.

Definition truthy (code : option string) : bool :=
  match code with
  | Some (String _ _) => true
  | _ => false
  end.

Definition main (W : World) : M unit :=
  cfg <- load_config ;;
  cid <- lift (getitem cfg "client_id") ;;
  csec <- lift (getitem cfg "client_secret") ;;
  redirect <- lift (get cfg "redirect_uri" (PStr "http://127.0.0.1:8080/")) ;;
  scope <- lift (get cfg "scope" (PStr "activity")) ;;
  port <- lift (get cfg "default_port" (PInt 8080)) ;;
  let auth_url :=
    Cat [Lit "https://www.fitbit.com/oauth2/authorize?";
         UrlEncode [("client_id", cid); ("response_type", PStr "code");
                    ("scope", scope); ("redirect_uri", redirect)]] in
  print [Lit "Open this URL in your browser and Allow the app:"] ;;
  print [auth_url] ;;
  print [Lit (String "010" "Trying to open browser automatically...")] ;;
  emit (Browser auth_url) ;;
  code <- await_callback W port ;;
  if negb (truthy code) then
    print [Lit "No code received. Make sure redirect uri matches and you allowed the app."] ;;
    raise (SystemExit (ExitCode 1))
  else
    print [Lit "Got code, exchanging for token..."] ;;
    token_data <- exchange_code_for_token W cid csec
                    (match code with Some c => c | None => EmptyString end)
                    redirect ;;
    save_tokens W token_data ;;
    print [Lit "Done. You can upload fitbit_tokens.json to your host server."].

(** The [__main__] block: [except Exception] catches everything but
    [SystemExit]. *)
Definition script (W : World) : M unit :=
  fun s => match main W s with
           | (Raise (Exception cls), s') =>
               print [Lit "Error:"; ExnStr cls] s'
           | other => other
           end.

End Login.

(** * Properties *)

Import Py.

(** ** Vocabulary of the statements *)

Definition outcome {A} (m : M A) (s : State) : result A := fst (m s).
Definition final {A} (m : M A) (s : State) : State := snd (m s).

(** The network calls of a log, in order. *)
Fixpoint net_calls (l : list event) : list request :=
  match l with
  | [] => []
  | Net r :: l' => r :: net_calls l'
  | _ :: l' => net_calls l'
  end.

(** The writes of a log, in order. *)
Fixpoint writes (l : list event) : list (string * pyval) :=
  match l with
  | [] => []
  | Wrote p v :: l' => (p, v) :: writes l'
  | _ :: l' => writes l'
  end.

(** The operations on values raise ordinary exceptions only. *)
Definition ordinary {A} (r : result A) : Prop :=
  match r with
  | Raise (SystemExit _) => False
  | _ => True
  end.

(** The shape of the record [Host.save_tokens] persists. *)
Definition runner_record (v : pyval) : Prop :=
  exists a r t,
    v = PDict [("access_token", a); ("refresh_token", r);
               ("updated_at", PStr t)].

Definition runner_write (w : string * pyval) : Prop :=
  fst w = TOKEN_FILE /\ runner_record (snd w).

(** State predicates kept by a computation, whatever its outcome. *)
Definition preserves {A} (I : State -> Prop) (m : M A) : Prop :=
  forall s, I s -> I (final m s).

Definition writes_ok (s : State) : Prop := Forall runner_write (writes (log s)).

(** The access token a refresh sent as call number [n] brings back, when
    it succeeds: status 200 and a JSON object with an [access_token]. *)
Definition refreshed_token (W : World) (n : nat) (h : Host.FitbitHost)
  : option pyval :=
  match send W n (Host.refresh_request h) with
  | Some rr =>
      if status_code rr =? 200 then
        match body rr with
        | Json (PDict d) => dict_get "access_token" d
        | _ => None
        end
      else None
  | None => None
  end.

(** The calls expected of [log_steps] when its first call is number [n]:
    the submission; after a 401, one refresh; after a successful refresh,
    one resubmission with the new token. *)
Definition submission_calls (W : World) (n : nat) (h : Host.FitbitHost)
  (data : list (string * pyval)) : list request :=
  let first := Host.activity_request h (Host.access_token h) data in
  first ::
  match send W n first with
  | Some r1 =>
      if status_code r1 =? 401 then
        Host.refresh_request h ::
        match refreshed_token W (S n) h with
        | Some a => [Host.activity_request h a data]
        | None => []
        end
      else []
  | None => []
  end.

Definition effective_date (W : World) (s : State) (date : option string)
  : string :=
  match date with
  | Some d => d
  | None => ymd (utcnow_at W (clock s))
  end.

Definition effective_steps (h : Host.FitbitHost) (steps : option Z) : Z :=
  match steps with Some n => n | None => Host.daily_steps h end.

Definition effective_start (h : Host.FitbitHost) (start : option pyval)
  : pyval :=
  match start with Some t => t | None => Host.start_time h end.

(** The state in which [log_steps] starts its submission: the clock was
    read when no date was given. *)
Definition after_defaults (s : State) (date : option string) : State :=
  match date with
  | Some _ => s
  | None => {| fs := fs s; clock := S (clock s); calls := calls s;
               log := log s |}
  end.

Definition probed (W : World) (h : Host.FitbitHost) (s : State) : State :=
  {| fs := fs s; clock := S (clock s); calls := S (calls s);
     log := log s ++ [Net (Host.probe_request h (utcnow_at W (clock s)))] |}.

(** The state of [main] once the host is built and the start line is
    printed. *)
Definition started (W : World) (files : gmap string content) : State :=
  {| fs := files; clock := 1; calls := 0;
     log := [Printed [Lit "Running at";
                      Lit (isoformat (utcnow_at W 0) ++ "Z")]] |}.

(** The authorization code the listener captured, if any. *)
Definition captured (W : World) : option string :=
  match listener W with
  | GetRequest path => fst (Login.do_GET W path None)
  | _ => None
  end.

(** [c] does not occur in [s]. *)
Definition no_char (c : ascii) (s : string) : Prop :=
  forall l r, s <> l ++ String c r.

(** The field reads [name=raw] with a non-empty [raw], [name] decodes to
    "code", and [value] is the decoded [raw]. *)
Definition code_field (field value : string) : Prop :=
  exists name raw,
    field = name ++ String "=" raw /\
    no_char "=" name /\
    raw <> EmptyString /\
    Login.decode name = "code" /\
    value = Login.decode raw.

(** The target reads [u?q] or [u?q#f]: [u] has neither [?] nor [#], and
    [q] has no [#]. *)
Definition target_with_query (path u q : string) : Prop :=
  (path = u ++ String "?" q \/
   exists f, path = u ++ String "?" (q ++ String "#" f)) /\
  no_char "?" u /\ no_char "#" u /\ no_char "#" q.

(** The values [parse_qs] files under [name]. *)
Definition values_of (name : string) (pairs : list (string * string))
  : list string :=
  map snd (List.filter (fun nv => String.eqb name (fst nv)) pairs).

Module Scenario.

Definition now : datetime :=
  {| isoformat := "2024-05-06T07:08:09.123456"; ymd := "2024-05-06" |}.

Definition config : pyval :=
  PDict [("client_id", PStr "CID"); ("client_secret", PStr "SEC")].

(** A credential record as the Authorizer writes it. *)
Definition tokens : pyval :=
  PDict [("access_token", PStr "A1");
         ("refresh_token", PStr "R1");
         ("scope", PStr "activity");
         ("token_type", PStr "Bearer");
         ("expires_in", PInt 28800);
         ("updated_at", PStr "2024-05-05T00:00:00.000000Z")].

Definition files : gmap string content :=
  <[TOKEN_FILE := Json tokens]> (<[CONFIG_FILE := Json config]> ∅).

Definition only_config : gmap string content :=
  <[CONFIG_FILE := Json config]> ∅.

Definition reply (status : Z) (v : pyval) : response :=
  {| status_code := status; body := Json v |}.

(** The remote side answers the run's calls in order with [answers];
    the interpreter answers ValueError wherever the choice is its. *)
Definition scripted (answers : list response) (inb : inbound) : World :=
  {| utcnow_at := fun _ => now;
     send := fun n _ => nth_error answers n;
     listener := inb;
     int_of_text := fun _ => None;
     query_of_target := fun _ => None |}.

(** The host [FitbitHost()] builds from [files]. *)
Definition host : Host.FitbitHost :=
  {| Host.client_id := PStr "CID";
     Host.client_secret := PStr "SEC";
     Host.daily_steps := 10000;
     Host.start_time := PStr "08:00";
     Host.access_token := PStr "A1";
     Host.refresh_token := PStr "R1";
     Host.token_url := "https://api.fitbit.com/oauth2/token";
     Host.base_api := "https://api.fitbit.com/1/user/-" |}.

Definition entry (token : pyval) : request :=
  Host.activity_request host token
    (Host.activity_data 10000 "2024-05-06" (PStr "08:00") 8%float).

(** Probe 200, submission 201 with a log id. *)
Definition clean : World :=
  scripted [reply 200 (PDict []);
            reply 201 (PDict [("activityLog", PDict [("logId", PInt 123)])])]
           Silence.

(** Probe 401, refresh 200 without a refresh_token, submission 200. *)
Definition refresh_without_token : World :=
  scripted [reply 401 (PDict []);
            reply 200 (PDict [("access_token", PStr "A2")]);
            reply 200 (PDict [])]
           Silence.

(** Probe 401, refresh 200 with both tokens, submission 200. *)
Definition refresh_with_token : World :=
  scripted [reply 401 (PDict []);
            reply 200 (PDict [("access_token", PStr "A2");
                              ("refresh_token", PStr "R2")]);
            reply 200 (PDict [])]
           Silence.


(** Probe 200, submission 401, refresh refused with 400. *)
Definition retry_refused : World :=
  scripted [reply 200 (PDict []); reply 401 (PDict []);
            reply 400 (PDict [])]
           Silence.

(** Probe 200, submission 401, refresh 200, resubmission 401. *)
Definition retry_unauthorized : World :=
  scripted [reply 200 (PDict []); reply 401 (PDict []);
            reply 200 (PDict [("access_token", PStr "A2");
                              ("refresh_token", PStr "R2")]);
            reply 401 (PDict [])]
           Silence.

(** The browser comes back with a code; the exchange is refused. *)
Definition exchange_refused : World :=
  scripted [reply 400 (PDict [])] (GetRequest "/?code=abc").

(** Nobody comes back. *)
Definition silent : World := scripted [] Silence.

End Scenario.

(** The value the persisted credential record holds under [key]. *)
Definition persisted (key : string) (s : State) : option pyval :=
  match fs s !! TOKEN_FILE with
  | Some (Json (PDict d)) => dict_get key d
  | _ => None
  end.

(** [k] is the integer nearest to m * 2^e * 1000, the even one when two
    integers are equally near. *)
Definition nearest_thousandth (m : positive) (e k : Z) : Prop :=
  let num := Z.pos m * 1000 * 2 ^ Z.max e 0 in
  let den := 2 ^ Z.max (- e) 0 in
  2 * Z.abs (num - k * den) <= den /\
  (2 * Z.abs (num - k * den) = den -> Z.even k = true).

(** [k / 1000] with the given sign, as IEEE 754 division rounds the
    quotient of the two integers to binary64. *)
Definition thousandths (negative : bool) (k : Z) : float :=
  match k with
  | Z.pos n =>
      SF2Prim (SFdiv prec emax (S754_finite negative n 0)
                 (S754_finite false 1000 0))
  | _ => SF2Prim (S754_zero negative)
  end.

(** [x] is [p] rounded to three decimals: the exact value of a finite
    [p] is brought to the nearest multiple of 1/1000, and [x] is the
    float nearest to that decimal; zeros, infinities and nan stay. *)
Definition rounded_to_thousandths (p x : float) : Prop :=
  match Prim2SF p with
  | S754_finite negative m e =>
      exists k, 0 <= k /\ nearest_thousandth m e k /\
                x = thousandths negative k
  | _ => x = p
  end.

(** The number of events of a log that [cost] counts. *)
Definition weight (cost : event -> nat) (l : list event) : nat :=
  list_sum (map cost l).

Definition net_cost (e : event) : nat :=
  match e with Net _ => 1 | _ => 0 end%nat.

Definition write_cost (e : event) : nat :=
  match e with Wrote _ _ => 1 | _ => 0 end%nat.

(** A computation adds at most [n] counted events to the log. *)
Definition grows_by {A} (cost : event -> nat) (n : nat) (m : M A) : Prop :=
  forall s, (weight cost (log (final m s)) <= weight cost (log s) + n)%nat.

(** Five calls and two writes in one run: probe 401, refresh, submission
    401, refresh, resubmission. *)
Definition busiest : World :=
  Scenario.scripted
    [Scenario.reply 401 (PDict []);
     Scenario.reply 200 (PDict [("access_token", PStr "A2");
                                ("refresh_token", PStr "R2")]);
     Scenario.reply 401 (PDict []);
     Scenario.reply 200 (PDict [("access_token", PStr "A3");
                                ("refresh_token", PStr "R3")]);
     Scenario.reply 200 (PDict [])]
    Silence.

(** Every path that [keep] holds of has the content it had in [files]. *)
Definition untouched (files : gmap string content) (keep : string -> Prop)
  (s : State) : Prop :=
  forall p, keep p -> fs s !! p = files !! p.

Definition not_token_file (p : string) : Prop := p <> TOKEN_FILE.

(** The configuration file holds a JSON object with both client keys. *)
Definition usable_config (files : gmap string content)
  (cfg : list (string * pyval)) (cid csec : pyval) : Prop :=
  files !! CONFIG_FILE = Some (Json (PDict cfg)) /\
  dict_get "client_id" cfg = Some cid /\
  dict_get "client_secret" cfg = Some csec.

Definition redirect_of (cfg : list (string * pyval)) : pyval :=
  match dict_get "redirect_uri" cfg with
  | Some uri => uri
  | None => PStr "http://127.0.0.1:8080/"
  end.

(** ** Lemmas and theorems *)

Lemma net_calls_app (l1 l2 : list event) :
  net_calls (l1 ++ l2) = (net_calls l1 ++ net_calls l2)%list.
Proof.
  induction l1 as [| e l1 IH]; [reflexivity |].
  destruct e; simpl; rewrite IH; reflexivity.
Qed.

Lemma writes_app (l1 l2 : list event) :
  writes (l1 ++ l2) = (writes l1 ++ writes l2)%list.
Proof.
  induction l1 as [| e l1 IH]; [reflexivity |].
  destruct e; simpl; rewrite IH; reflexivity.
Qed.

Lemma getitem_ordinary v k : ordinary (getitem v k).
Proof. destruct v; simpl; auto. destruct (dict_get k d); simpl; auto. Qed.

Lemma get_ordinary v k d : ordinary (get v k d).
Proof. destruct v; simpl; auto. Qed.

Lemma contains_ordinary k v : ordinary (contains k v).
Proof. destruct v; simpl; auto. Qed.

Lemma int_ordinary other v : ordinary (int other v).
Proof.
  destruct v; simpl; auto.
  - unfold int_of_float. destruct (Prim2SF f); simpl; auto.
  - destruct (int_of_str other s); simpl; auto.
Qed.

Lemma not_system_exit {A} (r : result A) (a : exit_arg) :
  ordinary r -> r = Raise (SystemExit a) -> False.
Proof. intros H E. rewrite E in H. exact H. Qed.

Lemma getitem_dict v k a :
  getitem v k = Ok a -> exists d, v = PDict d /\ dict_get k d = Some a.
Proof.
  destruct v; simpl; try discriminate.
  destruct (dict_get k d) eqn:E; [| discriminate].
  intros [= <-]. eauto.
Qed.

#[local] Opaque Host.distance.

Ltac unfold_prims :=
  unfold outcome, final, bind, ret, raise, lift, print, emit, path_exists,
    json_load, json_dump, utcnow, requests_send, response_json in *.

Lemma ordinary_raise {A} (r : result A) (e : exn) :
  ordinary r -> r = Raise e -> exists cls, e = Exception cls.
Proof.
  intros H E. rewrite E in H. destruct e as [a | cls]; [destruct H | eauto].
Qed.

Ltac ordinary_op :=
  first [ apply getitem_ordinary | apply get_ordinary
        | apply contains_ordinary | apply int_ordinary ].

(** An exception raised by an operation on values is not [SystemExit]. *)
Ltac no_exit :=
  repeat match goal with
  | H : ?r = Raise (SystemExit ?a) |- _ =>
      exfalso; apply (not_system_exit r a); [ordinary_op | exact H]
  | H : ?r = Raise ?e |- _ =>
      is_var e;
      let E := fresh "E" in
      assert (E : exists cls, e = Exception cls)
        by (apply (ordinary_raise r); [ordinary_op | exact H]);
      destruct E as [? ->]
  end.

(** Case split on the innermost scrutinee the goal is stuck on. *)
Ltac split_match :=
  match goal with
  | |- context [match ?x with _ => _ end] =>
      lazymatch x with
      | context [match _ with _ => _ end] => fail
      | _ => destruct x eqn:?
      end
  end.

Ltac crunch := repeat (cbn in *; try split_match).

(** ** Missing files *)

Lemma host_config_missing (W : World) (files : gmap string content) :
  files !! CONFIG_FILE = None ->
  exists msg,
    Host.main W (initial files) = (Raise (SystemExit (ExitMsg msg)), initial files).
Proof.
  intros H. unfold Host.main, Host.init, Host.load_config. unfold_prims.
  cbn. rewrite H. cbn. eauto.
Qed.

Lemma host_tokens_missing (W : World) (files : gmap string content) :
  files !! TOKEN_FILE = None ->
  exists e, Host.main W (initial files) = (Raise e, initial files)
            /\ exit_status (@Raise unit e) = 1.
Proof.
  intros H.
  unfold Host.main, Host.init, Host.load_config, Host.load_tokens.
  unfold_prims.
  repeat (cbn in *; try rewrite H; try split_match);
    try no_exit; subst; eauto.
Qed.

Lemma login_config_missing (W : World) (files : gmap string content) :
  files !! CONFIG_FILE = None ->
  Login.script W (initial files) =
    (Raise (SystemExit (ExitCode 1)),
     {| fs := <[CONFIG_FILE := Json Login.sample_config]> files;
        clock := 0; calls := 0;
        log := [Wrote CONFIG_FILE Login.sample_config;
                Printed [Lit "Created sample fitbit_config.json. Please edit it with your app credentials and run again."]] |}).
Proof.
  intros H. unfold Login.script, Login.main, Login.load_config. unfold_prims.
  cbn. rewrite H. reflexivity.
Qed.

(** C6: when the app/config record is absent (either script) or the
    credential record is absent (Runner), the process terminates, by an
    exit or an exception with non-zero status, and its log holds no
    network call: none was made before it terminated. *)
Theorem missing_record_no_network (W : World) (files : gmap string content) :
  files !! CONFIG_FILE = None \/ files !! TOKEN_FILE = None ->
  (exists e, outcome (Host.main W) (initial files) = Raise e
             /\ exit_status (@Raise unit e) = 1) /\
  net_calls (log (final (Host.main W) (initial files))) = [] /\
  calls (final (Host.main W) (initial files)) = 0%nat /\
  (files !! CONFIG_FILE = None ->
   outcome (Login.script W) (initial files) = Raise (SystemExit (ExitCode 1)) /\
   net_calls (log (final (Login.script W) (initial files))) = [] /\
   calls (final (Login.script W) (initial files)) = 0%nat).
Proof.
  intros H. unfold outcome, final.
  assert (Hh : exists e, Host.main W (initial files) = (Raise e, initial files)
                         /\ exit_status (@Raise unit e) = 1).
  { destruct H as [H | H].
    - destruct (host_config_missing W files H) as [msg E]. eauto.
    - apply host_tokens_missing, H. }
  destruct Hh as (e & E & He). rewrite E. cbn.
  split; [eauto |]. split; [reflexivity |]. split; [reflexivity |].
  intros Hc. rewrite (login_config_missing W files Hc). cbn. auto.
Qed.

(** C9: with the configuration file absent, the Authorizer writes the
    sample configuration (placeholder client_id and client_secret,
    redirect_uri http://127.0.0.1:8080/, scope activity, default_port
    8080) to that path, then exits with status 1: the file system is
    changed on this error path. *)
Theorem missing_config_writes_sample (W : World) (files : gmap string content) :
  files !! CONFIG_FILE = None ->
  outcome (Login.script W) (initial files) = Raise (SystemExit (ExitCode 1)) /\
  exit_status (outcome (Login.script W) (initial files)) <> 0 /\
  writes (log (final (Login.script W) (initial files))) =
    [(CONFIG_FILE,
      PDict [("client_id", PStr "YOUR_CLIENT_ID");
             ("client_secret", PStr "YOUR_CLIENT_SECRET");
             ("redirect_uri", PStr "http://127.0.0.1:8080/");
             ("scope", PStr "activity");
             ("default_port", PInt 8080)])] /\
  fs (final (Login.script W) (initial files)) !! CONFIG_FILE =
    Some (Json Login.sample_config) /\
  fs (final (Login.script W) (initial files)) <> files.
Proof.
  intros H. unfold outcome, final.
  rewrite (login_config_missing W files H). cbn.
  repeat split; try reflexivity; try discriminate.
  - apply lookup_insert_eq.
  - intros E. apply (f_equal (fun m => m !! CONFIG_FILE)) in E.
    rewrite lookup_insert_eq, H in E. discriminate.
Qed.

(** ** Refresh and the credential record *)

(** A refresh makes exactly one network call, whatever comes back. *)
Lemma refresh_one_call (W : World) (h : Host.FitbitHost) (s : State) :
  net_calls (log (final (Host.refresh_access_token W h) s)) =
    (net_calls (log s) ++ [Host.refresh_request h])%list /\
  calls (final (Host.refresh_access_token W h) s) = S (calls s).
Proof.
  unfold Host.refresh_access_token, Host.save_tokens. unfold_prims.
  crunch; rewrite ?net_calls_app; cbn; rewrite ?app_nil_r; auto.
Qed.

(** The refresh answered 200 with a JSON object holding an access token. *)
Lemma refresh_success (W : World) (h : Host.FitbitHost) (s : State)
  (rr : response) (d : list (string * pyval)) (a : pyval) :
  send W (calls s) (Host.refresh_request h) = Some rr ->
  status_code rr = 200 ->
  body rr = Json (PDict d) ->
  dict_get "access_token" d = Some a ->
  let rt := match dict_get "refresh_token" d with
            | Some v => v
            | None => PNone
            end in
  let record := Host.token_record a rt (utcnow_at W (clock s)) in
  Host.refresh_access_token W h s =
    (Ok (true, Host.set_tokens h a rt),
     {| fs := <[TOKEN_FILE := Json record]> (fs s);
        clock := S (clock s);
        calls := S (calls s);
        log := log s ++ [Net (Host.refresh_request h);
                         Wrote TOKEN_FILE record;
                         Printed [Lit "Updated fitbit_tokens.json"]] |}).
Proof.
  intros Hs H200 Hb Ha rt record.
  unfold Host.refresh_access_token, Host.save_tokens. unfold_prims.
  cbn. rewrite Hs. cbn. rewrite H200, Hb. cbn. rewrite Ha. cbn.
  rewrite <- !app_assoc. reflexivity.
Qed.

(** Conversely, a refresh reports success only in that case. *)
Lemma refresh_true_inv (W : World) (h h' : Host.FitbitHost) (s : State) :
  outcome (Host.refresh_access_token W h) s = Ok (true, h') ->
  exists rr d a,
    send W (calls s) (Host.refresh_request h) = Some rr /\
    status_code rr = 200 /\
    body rr = Json (PDict d) /\
    dict_get "access_token" d = Some a.
Proof.
  unfold Host.refresh_access_token, Host.save_tokens. unfold_prims.
  destruct (send W (calls s) (Host.refresh_request h)) as [rr |] eqn:Hs;
    cbn; [| discriminate].
  destruct (status_code rr =? 200) eqn:H200; cbn; [| discriminate].
  destruct (body rr) as [jd | raw] eqn:Hb; cbn; [| discriminate].
  destruct (getitem jd "access_token") as [a | e] eqn:Ha; cbn; [| discriminate].
  destruct (getitem_dict _ _ _ Ha) as (d & -> & Hd).
  intros _. exists rr, d, a. repeat split; auto. lia.
Qed.


(** C1, as amended: a refresh answered 200 with a JSON object that has an
    access_token rewrites the whole persisted record in one write:
    access_token is the response's, updated_at the current UTC time, and
    refresh_token the response's refresh_token when it has one and None
    (JSON null) when it has none. *)
Theorem refresh_rewrites_record (W : World) (h : Host.FitbitHost) (s : State)
  (rr : response) (d : list (string * pyval)) (a : pyval) :
  send W (calls s) (Host.refresh_request h) = Some rr ->
  status_code rr = 200 ->
  body rr = Json (PDict d) ->
  dict_get "access_token" d = Some a ->
  let s' := final (Host.refresh_access_token W h) s in
  let rt := match dict_get "refresh_token" d with
            | Some v => v
            | None => PNone
            end in
  outcome (Host.refresh_access_token W h) s =
    Ok (true, Host.set_tokens h a rt) /\
  fs s' !! TOKEN_FILE =
    Some (Json (PDict [("access_token", a);
                       ("refresh_token", rt);
                       ("updated_at",
                        PStr (isoformat (utcnow_at W (clock s)) ++ "Z"))])) /\
  (forall path, path <> TOKEN_FILE -> fs s' !! path = fs s !! path) /\
  writes (log s') =
    (writes (log s) ++
     [(TOKEN_FILE,
       Host.token_record a rt (utcnow_at W (clock s)))])%list.
Proof.
  intros Hs H200 Hb Ha s' rt. subst s'. unfold outcome, final.
  rewrite (refresh_success W h s rr d a Hs H200 Hb Ha). cbn.
  split; [reflexivity |]. split; [apply lookup_insert_eq |].
  split.
  - intros path Hp. apply lookup_insert_ne. congruence.
  - rewrite writes_app. reflexivity.
Qed.

(** ** What the Runner writes *)

Section Preservation.
Variable I : State -> Prop.

Lemma preserves_ret {A} (a : A) : preserves I (ret a).
Proof using Type. intros s H. exact H. Qed.

Lemma preserves_raise {A} (e : exn) : preserves I (@raise A e).
Proof using Type. intros s H. exact H. Qed.

Lemma preserves_lift {A} (r : result A) : preserves I (lift r).
Proof using Type. intros s H. exact H. Qed.

Lemma preserves_path_exists (p : string) : preserves I (path_exists p).
Proof using Type. intros s H. exact H. Qed.

Lemma preserves_json_load (p : string) : preserves I (json_load p).
Proof using Type.
  intros s H. unfold final, json_load.
  destruct (fs s !! p) as [[v | raw] |]; exact H.
Qed.

Lemma preserves_response_json (r : response) : preserves I (response_json r).
Proof using Type.
  intros s H. unfold final, response_json. destruct (body r); exact H.
Qed.

Lemma preserves_bind {A B} (m : M A) (k : A -> M B) :
  preserves I m -> (forall a, preserves I (k a)) -> preserves I (bind m k).
Proof using Type.
  intros Hm Hk s H. specialize (Hm s H). unfold final, bind in *.
  destruct (m s) as [[a | e] s1]; cbn in *; [apply Hk |]; exact Hm.
Qed.
End Preservation.

Lemma writes_ok_print (args : list chunk) : preserves writes_ok (print args).
Proof.
  intros s H. unfold writes_ok, final in *. cbn.
  rewrite writes_app, app_nil_r. exact H.
Qed.

Lemma writes_ok_utcnow (W : World) : preserves writes_ok (utcnow W).
Proof. intros s H. exact H. Qed.

Lemma writes_ok_send (W : World) (r : request) :
  preserves writes_ok (requests_send W r).
Proof.
  intros s H. unfold writes_ok, final, requests_send in *.
  destruct (send W (calls s) r); cbn; rewrite writes_app, app_nil_r; exact H.
Qed.

Lemma writes_ok_dump (v : pyval) :
  runner_record v -> preserves writes_ok (json_dump TOKEN_FILE v).
Proof.
  intros Hv s H. unfold writes_ok, final in *. cbn.
  rewrite writes_app. apply Forall_app. split; [exact H |].
  repeat constructor. exact Hv.
Qed.

Create HintDb keeps.
#[local] Hint Resolve preserves_ret preserves_raise preserves_lift
  preserves_path_exists preserves_json_load preserves_response_json
  writes_ok_print writes_ok_utcnow writes_ok_send : keeps.

(** Walk down a program: binds, then whatever the branch is stuck on. *)
Ltac keeps :=
  repeat first
    [ progress auto with keeps
    | apply preserves_bind; [| intros ?]
    | match goal with
      | |- preserves _ (match ?x with _ => _ end) => destruct x
      | |- preserves _ (if ?b then _ else _) => destruct b
      | |- preserves _ (let '(_, _) := ?x in _) => destruct x
      end ].

Lemma writes_ok_save_tokens W h a r :
  preserves writes_ok (Host.save_tokens W h a r).
Proof.
  unfold Host.save_tokens. keeps.
  apply writes_ok_dump. unfold runner_record, Host.token_record. eauto.
Qed.
#[local] Hint Resolve writes_ok_save_tokens : keeps.

Lemma writes_ok_refresh W h :
  preserves writes_ok (Host.refresh_access_token W h).
Proof. unfold Host.refresh_access_token. keeps. Qed.
#[local] Hint Resolve writes_ok_refresh : keeps.

Lemma writes_ok_refresh_if_needed W h :
  preserves writes_ok (Host.refresh_if_needed W h).
Proof. unfold Host.refresh_if_needed. keeps. Qed.

Lemma writes_ok_log_outcome h steps date r :
  preserves writes_ok (Host.log_outcome h steps date r).
Proof. unfold Host.log_outcome. keeps. Qed.
#[local] Hint Resolve writes_ok_refresh_if_needed writes_ok_log_outcome : keeps.

Lemma writes_ok_log_steps W h steps date start :
  preserves writes_ok (Host.log_steps W h steps date start).
Proof. unfold Host.log_steps, Host.submit. keeps. Qed.

Lemma writes_ok_init W : preserves writes_ok (Host.init W).
Proof. unfold Host.init, Host.load_config, Host.load_tokens. keeps. Qed.
#[local] Hint Resolve writes_ok_log_steps writes_ok_init : keeps.

Lemma writes_ok_main W : preserves writes_ok (Host.main W).
Proof. unfold Host.main. keeps. Qed.

(** ** The network calls of a submission *)

Lemma getitem_access_token (jd : pyval) :
  match jd with
  | PDict d => dict_get "access_token" d
  | _ => None
  end = match getitem jd "access_token" with
        | Ok a => Some a
        | Raise _ => None
        end.
Proof.
  destruct jd; cbn; try reflexivity.
  destruct (dict_get "access_token" d); reflexivity.
Qed.

Lemma log_outcome_no_call (h : Host.FitbitHost) steps date r s :
  net_calls (log (final (Host.log_outcome h steps date r) s)) =
    net_calls (log s) /\
  calls (final (Host.log_outcome h steps date r) s) = calls s /\
  fs (final (Host.log_outcome h steps date r) s) = fs s.
Proof.
  unfold Host.log_outcome. unfold_prims.
  crunch; rewrite ?net_calls_app; cbn; rewrite ?app_nil_r; auto.
Qed.

Ltac calls_norm :=
  rewrite ?net_calls_app; cbn [net_calls]; rewrite <- ?app_assoc; cbn [app].

Arguments Host.log_outcome : simpl never.
Arguments Host.refresh_access_token : simpl never.

(** [refreshed_token] tells when the refresh reports success, and the
    token the host then holds. *)
Lemma refreshed_token_spec (W : World) (h : Host.FitbitHost) (s : State) :
  refreshed_token W (calls s) h =
    match outcome (Host.refresh_access_token W h) s with
    | Ok (true, h') => Some (Host.access_token h')
    | _ => None
    end.
Proof.
  unfold refreshed_token, Host.refresh_access_token, Host.save_tokens.
  unfold_prims.
  destruct (send W (calls s) (Host.refresh_request h)) as [rr |]; cbn;
    [| reflexivity].
  destruct (status_code rr =? 200); cbn; [| reflexivity].
  destruct (body rr) as [jd | raw]; cbn; [| reflexivity].
  rewrite getitem_access_token.
  destruct (getitem jd "access_token") as [a | e] eqn:Ha; cbn; [| reflexivity].
  destruct (getitem_dict _ _ _ Ha) as (d & -> & Hd). reflexivity.
Qed.

Lemma refresh_false_same_host (W : World) (h h' : Host.FitbitHost) (s : State) :
  outcome (Host.refresh_access_token W h) s = Ok (false, h') -> h' = h.
Proof.
  unfold Host.refresh_access_token, Host.save_tokens. unfold_prims.
  destruct (send W (calls s) (Host.refresh_request h)) as [rr |]; cbn;
    [| discriminate].
  destruct (status_code rr =? 200); cbn; [| congruence].
  destruct (body rr) as [jd | raw]; cbn; [| discriminate].
  destruct (getitem jd "access_token") as [a | e]; cbn; [| discriminate].
  destruct (get jd "refresh_token" PNone); cbn; discriminate.
Qed.

Lemma refresh_true_same_api (W : World) (h h' : Host.FitbitHost) (s : State) :
  outcome (Host.refresh_access_token W h) s = Ok (true, h') ->
  Host.base_api h' = Host.base_api h /\ Host.token_url h' = Host.token_url h.
Proof.
  unfold Host.refresh_access_token, Host.save_tokens. unfold_prims.
  destruct (send W (calls s) (Host.refresh_request h)) as [rr |]; cbn;
    [| discriminate].
  destruct (status_code rr =? 200); cbn; [| discriminate].
  destruct (body rr) as [jd | raw]; cbn; [| discriminate].
  destruct (getitem jd "access_token") as [a | e]; cbn; [| discriminate].
  destruct (get jd "refresh_token" PNone); cbn; [| discriminate].
  intros [= <-]. auto.
Qed.

Lemma log_steps_run (W : World) (h : Host.FitbitHost) (s : State)
  (steps : option Z) (date : option string) (start : option pyval) :
  Host.log_steps W h steps date start s =
    Host.submit W h (effective_steps h steps) (effective_date W s date)
      (effective_start h start) (after_defaults s date).
Proof. destruct date; reflexivity. Qed.

Lemma submit_net_calls (W : World) (h : Host.FitbitHost) (s : State)
  (stp : Z) (d : string) (st : pyval) :
  net_calls (log (final (Host.submit W h stp d st) s)) =
    (net_calls (log s) ++
     match Host.distance stp with
     | Some dist =>
         submission_calls W (calls s) h (Host.activity_data stp d st dist)
     | None => []
     end)%list.
Proof.
  pose proof log_outcome_no_call as Hout. unfold final in Hout.
  unfold Host.submit, final, submission_calls.
  destruct (Host.distance stp) as [dist |]; cbn;
    [| rewrite app_nil_r; reflexivity].
  unfold_prims.
  destruct (send W (calls s) _) as [r1 |]; cbn;
    [| calls_norm; reflexivity].
  destruct (status_code r1 =? 401); cbn.
  2:{ rewrite (proj1 (Hout _ _ _ _ _)). cbn. calls_norm. reflexivity. }
  match goal with
  | |- context [Host.refresh_access_token W h ?s1] =>
      pose proof (refresh_one_call W h s1) as [Hn Hk];
      pose proof (refreshed_token_spec W h s1) as Ht;
      pose proof (fun h' => refresh_true_same_api W h h' s1) as Hb;
      unfold outcome, final in Hn, Hk, Ht, Hb;
      destruct (Host.refresh_access_token W h s1) as [[[ok h'] | e] s2]
  end; cbn in *; rewrite Ht.
  2:{ rewrite Hn. calls_norm. reflexivity. }
  destruct ok; cbn.
  2:{ rewrite Hn. calls_norm. reflexivity. }
  destruct (Hb h' eq_refl) as [Hb1 Hb2].
  assert (Hreq : forall a data, Host.activity_request h' a data =
                                Host.activity_request h a data).
  { intros. unfold Host.activity_request. rewrite Hb1. reflexivity. }
  rewrite !Hreq.
  destruct (send W (calls s2) _) as [r2 |]; cbn.
  - rewrite (proj1 (Hout _ _ _ _ _)). cbn.
    rewrite net_calls_app, Hn. calls_norm. reflexivity.
  - rewrite net_calls_app, Hn. calls_norm. reflexivity.
Qed.

Lemma log_steps_net_calls (W : World) (h : Host.FitbitHost) (s : State)
  (steps : option Z) (date : option string) (start : option pyval) :
  net_calls (log (final (Host.log_steps W h steps date start) s)) =
    (net_calls (log s) ++
     match Host.distance (effective_steps h steps) with
     | Some dist =>
         submission_calls W (calls s) h
           (Host.activity_data (effective_steps h steps)
              (effective_date W s date) (effective_start h start) dist)
     | None => []
     end)%list.
Proof.
  unfold final. rewrite log_steps_run.
  pose proof (submit_net_calls W h (after_defaults s date)) as H.
  unfold final in H. rewrite H. destruct date; reflexivity.
Qed.

(** ** Submission answered 401 *)

Section Submission401.
Variables (W : World) (h : Host.FitbitHost) (s : State).
Variables (stp : Z) (d : string) (st : pyval) (dist : float) (r1 : response).

Let data := Host.activity_data stp d st dist.
Let first := Host.activity_request h (Host.access_token h) data.

Hypothesis Hdist : Host.distance stp = Some dist.
Hypothesis Hfirst : send W (calls s) first = Some r1.
Hypothesis H401 : status_code r1 = 401.

(** The state in which the inline refresh runs. *)
Let s1 : State :=
  {| fs := fs s; clock := clock s; calls := S (calls s);
     log := (log s ++ [Net first]) ++
            [Printed [Lit "Token expired, refreshing..."]] |}.

Lemma submit_401_run :
  Host.submit W h stp d st s =
    match Host.refresh_access_token W h s1 with
    | (Ok (true, h'), s2) =>
        (r2 <- requests_send W
                 (Host.activity_request h' (Host.access_token h') data) ;;
         Host.log_outcome h' stp d r2) s2
    | (Ok (false, h'), s2) => (Ok (false, h'), s2)
    | (Raise e, s2) => (Raise e, s2)
    end.
Proof using Hdist Hfirst H401.
  unfold Host.submit. rewrite Hdist. unfold_prims. cbn.
  fold data. fold first. rewrite Hfirst. cbn. rewrite H401. cbn.
  fold s1. destruct (Host.refresh_access_token W h s1) as [[[[] h'] | e] s2];
    reflexivity.
Qed.

(** Without a successful refresh the submission is not reported as
    done. *)
Lemma submit_401_refresh_failed :
  refreshed_token W (S (calls s)) h = None ->
  forall h', outcome (Host.submit W h stp d st) s <> Ok (true, h').
Proof using Hdist Hfirst H401.
  intros Hnone h'. unfold outcome. rewrite submit_401_run.
  pose proof (refreshed_token_spec W h s1) as Ht. unfold outcome in Ht.
  cbn in Ht. rewrite Hnone in Ht.
  destruct (Host.refresh_access_token W h s1) as [[[[] h1] | e] s2];
    cbn in *; congruence.
Qed.

(** After a successful refresh, a resubmission answered 401 is reported
    as a failure: nothing follows the "Log failed:" line. *)
Lemma submit_401_twice (a : pyval) (r2 : response) :
  refreshed_token W (S (calls s)) h = Some a ->
  send W (S (S (calls s))) (Host.activity_request h a data) = Some r2 ->
  status_code r2 = 401 ->
  exists h' pre,
    outcome (Host.submit W h stp d st) s = Ok (false, h') /\
    Host.access_token h' = a /\
    log (final (Host.submit W h stp d st) s) =
      (pre ++ [Net (Host.activity_request h a data);
               Printed [Lit "Log failed:"; Str (PInt 401);
                        Text (body r2)]])%list.
Proof using Hdist Hfirst H401.
  intros Hsome H2 H2401. unfold outcome, final. rewrite submit_401_run.
  pose proof (refreshed_token_spec W h s1) as Ht.
  pose proof (refresh_one_call W h s1) as [_ Hk].
  pose proof (fun h' => refresh_true_same_api W h h' s1) as Hb.
  unfold outcome, final in Ht, Hk, Hb. cbn in Ht, Hk. rewrite Hsome in Ht.
  destruct (Host.refresh_access_token W h s1) as [[[[] h1] | e] s2];
    cbn in *; try discriminate.
  injection Ht as Ht. destruct (Hb h1 eq_refl) as [Hb1 _].
  assert (Hreq : Host.activity_request h1 (Host.access_token h1) data =
                 Host.activity_request h a data).
  { unfold Host.activity_request. rewrite Hb1, <- Ht. reflexivity. }
  rewrite Hreq. unfold Host.log_outcome. unfold_prims. cbn.
  rewrite Hk, H2. cbn. rewrite H2401. cbn.
  exists h1, (log s2). split; [reflexivity |]. split; [congruence |].
  rewrite <- app_assoc. reflexivity.
Qed.
End Submission401.

(** C3, as amended: when the first log-submission POST is answered 401,
    exactly one refresh attempt follows it; exactly one resubmission,
    carrying the refreshed Bearer token, follows when that refresh
    succeeds, and none when it fails (the run then reports failure); a
    resubmission answered 401 is reported as a failure and nothing is
    sent after it. *)
Theorem submission_401_single_retry (W : World) (h : Host.FitbitHost)
  (s : State) (steps : option Z) (date : option string)
  (start : option pyval) (dist : float) (r1 : response) :
  let data := Host.activity_data (effective_steps h steps)
                (effective_date W s date) (effective_start h start) dist in
  let first := Host.activity_request h (Host.access_token h) data in
  let run := Host.log_steps W h steps date start in
  Host.distance (effective_steps h steps) = Some dist ->
  send W (calls s) first = Some r1 ->
  status_code r1 = 401 ->
  net_calls (log (final run s)) =
    (net_calls (log s) ++
     first :: Host.refresh_request h ::
     match refreshed_token W (S (calls s)) h with
     | Some a => [Host.activity_request h a data]
     | None => []
     end)%list /\
  (forall a, headers (Host.activity_request h a data) =
             [("Authorization", [Lit "Bearer "; Str a]);
              ("Content-Type", [Lit "application/x-www-form-urlencoded"])]) /\
  (refreshed_token W (S (calls s)) h = None ->
   forall h', outcome run s <> Ok (true, h')) /\
  (forall a r2,
     refreshed_token W (S (calls s)) h = Some a ->
     send W (S (S (calls s))) (Host.activity_request h a data) = Some r2 ->
     status_code r2 = 401 ->
     exists h' pre,
       outcome run s = Ok (false, h') /\
       log (final run s) =
         (pre ++ [Net (Host.activity_request h a data);
                  Printed [Lit "Log failed:"; Str (PInt 401);
                           Text (body r2)]])%list).
Proof.
  intros data first run Hdist Hfirst H401. subst run.
  assert (Hc : calls (after_defaults s date) = calls s)
    by (destruct date; reflexivity).
  split.
  { rewrite log_steps_net_calls, Hdist. unfold submission_calls.
    fold data. fold first. rewrite Hfirst.
    destruct (status_code r1 =? 401) eqn:E; [reflexivity | lia]. }
  split; [reflexivity |].
  unfold outcome, final. rewrite log_steps_run.
  split.
  - intros Hnone h'.
    apply (submit_401_refresh_failed W h (after_defaults s date) _ _ _ dist r1);
      rewrite ?Hc; auto.
  - intros a r2 Hsome H2 H2401.
    destruct (submit_401_twice W h (after_defaults s date) _
                (effective_date W s date) (effective_start h start)
                dist r1 Hdist) with (a := a) (r2 := r2)
      as (h' & pre & Ho & _ & Hl); rewrite ?Hc; auto.
    exists h', pre. split; [exact Ho | exact Hl].
Qed.

(** ** The probe *)

(** Loading configuration and credentials changes nothing. *)
Lemma init_state (W : World) (s : State) : final (Host.init W) s = s.
Proof.
  unfold Host.init, Host.load_config, Host.load_tokens. unfold_prims.
  crunch; reflexivity.
Qed.

Lemma init_api (W : World) (s : State) (h : Host.FitbitHost) :
  outcome (Host.init W) s = Ok h ->
  Host.token_url h = "https://api.fitbit.com/oauth2/token" /\
  Host.base_api h = "https://api.fitbit.com/1/user/-".
Proof.
  unfold Host.init, Host.load_config, Host.load_tokens. unfold_prims.
  crunch; intros [= <-] || discriminate; auto.
Qed.

Lemma refresh_if_needed_run (W : World) (h : Host.FitbitHost) (s : State)
  (r : response) :
  send W (calls s) (Host.probe_request h (utcnow_at W (clock s))) = Some r ->
  Host.refresh_if_needed W h s =
    (if status_code r =? 401 then Host.refresh_access_token W h
     else ret (true, h)) (probed W h s).
Proof.
  intros Hs. unfold Host.refresh_if_needed. unfold_prims. cbn.
  rewrite Hs. reflexivity.
Qed.

Lemma main_run (W : World) (files : gmap string content)
  (h : Host.FitbitHost) :
  outcome (Host.init W) (initial files) = Ok h ->
  Host.main W (initial files) =
    (rf <- Host.refresh_if_needed W h ;;
     let '(ok, h) := rf in
     if negb ok then print [Lit "Token refresh/check failed."]
     else
       ls <- Host.log_steps W h None None None ;;
       if fst ls then print [Lit "Done."] else print [Lit "Failed."])
    (started W files).
Proof.
  intros Hi. pose proof (init_state W (initial files)) as Hs.
  unfold outcome, final in *. unfold Host.main.
  unfold bind at 1. destruct (Host.init W (initial files)) as [r s0].
  cbn in Hi, Hs. subst. reflexivity.
Qed.

Lemma submission_calls_shape (W : World) (n : nat) (h : Host.FitbitHost)
  (data : list (string * pyval)) :
  exists more,
    submission_calls W n h data =
      Host.activity_request h (Host.access_token h) data :: more /\
    Forall (fun q => meth q = POST) more.
Proof.
  unfold submission_calls. eexists. split; [reflexivity |].
  destruct (send W n _) as [r1 |]; [| constructor].
  destruct (status_code r1 =? 401); [| constructor].
  destruct (refreshed_token W (S n) h); repeat constructor.
Qed.




(** ** The submitted entry *)

(** The literal [0.0008] denotes the binary64 value nearest to 8/10000. *)
Lemma km_per_step_nearest :
  Host.km_per_step =
    SF2Prim (SFdiv prec emax (S754_finite false 8 0)
               (S754_finite false 10000 0)).
Proof. vm_compute. reflexivity. Qed.

Lemma float_of_int_in_range (n : Z) :
  Z.abs n < 2 ^ 1024 - 2 ^ 970 -> exists f, float_of_int n = Some f.
Proof.
  intros H. unfold float_of_int.
  destruct (2 ^ 1024 - 2 ^ 970 <=? Z.abs n) eqn:E; [lia | eauto].
Qed.

Lemma distance_in_range (n : Z) :
  Z.abs n < 2 ^ 1024 - 2 ^ 970 -> exists x, Host.distance n = Some x.
Proof.
  intros H. Transparent Host.distance. unfold Host.distance. Opaque Host.distance.
  destruct (float_of_int_in_range n H) as [f ->]. eauto.
Qed.

Lemma distance_value (n : Z) (x : float) :
  Host.distance n = Some x ->
  exists f, float_of_int n = Some f /\
            x = round (PrimFloat.mul f Host.km_per_step) 3.
Proof.
  Transparent Host.distance. unfold Host.distance. Opaque Host.distance.
  destruct (float_of_int n) as [f |]; [| discriminate].
  intros [= <-]. eauto.
Qed.

Lemma submission_calls_members (W : World) (n : nat) (h : Host.FitbitHost)
  (data : list (string * pyval)) (q : request) :
  In q (submission_calls W n h data) ->
  q = Host.refresh_request h \/
  exists token, q = Host.activity_request h token data.
Proof.
  unfold submission_calls. intros [<- | Hq]; [eauto |].
  destruct (send W n _) as [r1 |]; [| destruct Hq].
  destruct (status_code r1 =? 401); [| destruct Hq].
  destruct Hq as [<- | Hq]; [auto |].
  destruct (refreshed_token W (S n) h); [| destruct Hq].
  destruct Hq as [<- | []]. eauto.
Qed.

Lemma div_half_even_nearest (num den : Z) :
  0 <= num -> 0 < den ->
  let k := div_half_even num den in
  0 <= k /\
  2 * Z.abs (num - k * den) <= den /\
  (2 * Z.abs (num - k * den) = den -> Z.even k = true).
Proof.
  intros Hnum Hden. unfold div_half_even.
  pose proof (Z.div_mod num den ltac:(lia)) as Hdm.
  pose proof (Z.mod_pos_bound num den Hden) as Hr.
  pose proof (Z.div_pos num den Hnum Hden) as Hq.
  set (q := num / den) in *. set (r := num mod den) in *.
  assert (Hk0 : num - q * den = r) by lia.
  assert (Hk1 : num - (q + 1) * den = r - den) by lia.
  destruct (Z.ltb_spec (2 * r) den) as [Hlt | Hge].
  - rewrite Hk0. split; [lia |]. split; lia.
  - destruct (Z.ltb_spec den (2 * r)) as [Hgt | Hle].
    + rewrite Hk1. split; [lia |]. split; lia.
    + destruct (Z.even q) eqn:He.
      * rewrite Hk0. split; [lia |]. split; [lia | auto].
      * rewrite Hk1. split; [lia |]. split; [lia |]. intros _.
        change (q + 1) with (Z.succ q).
        rewrite Z.even_succ, <- Z.negb_even, He. reflexivity.
Qed.

(** [round(p, 3)] rounds to three decimals. *)
Lemma round_thousandths (p : float) : rounded_to_thousandths p (round p 3).
Proof.
  unfold rounded_to_thousandths, round.
  destruct (Prim2SF p) as [sg | sg | | sg m e]; try reflexivity.
  set (num := Z.pos m * 10 ^ 3 * (if 0 <=? e then 2 ^ e else 1)).
  set (den := if 0 <=? e then 1 else 2 ^ (- e)).
  assert (Hnum : num = Z.pos m * 1000 * 2 ^ Z.max e 0).
  { subst num. destruct (Z.leb_spec 0 e).
    - rewrite Z.max_l by lia. reflexivity.
    - rewrite Z.max_r by lia. reflexivity. }
  assert (Hden : den = 2 ^ Z.max (- e) 0).
  { subst den. destruct (Z.leb_spec 0 e).
    - rewrite Z.max_r by lia. reflexivity.
    - rewrite Z.max_l by lia. reflexivity. }
  assert (Hd0 : 0 < den).
  { rewrite Hden. apply Z.pow_pos_nonneg; lia. }
  assert (Hn0 : 0 <= num).
  { rewrite Hnum. apply Z.mul_nonneg_nonneg; [lia |].
    apply Z.pow_nonneg. lia. }
  destruct (div_half_even_nearest num den Hn0 Hd0) as (Hk & Hnear & Heven).
  exists (div_half_even num den). split; [exact Hk |]. split.
  - unfold nearest_thousandth. rewrite <- Hnum, <- Hden. auto.
  - destruct (div_half_even num den); reflexivity.
Qed.

(** C5: for a step count s >= 1, every entry [log_steps] submits has
    durationMillis = max(floor(s/100), 1) * 60 * 1000, steps = s, and as
    distance the binary64 product s * 0.0008 rounded to three decimals
    (the nearest multiple of 1/1000, ties to the even one, as the
    nearest float); an entry is submitted whenever float(s) does not
    overflow.  The rounding shows at s = 1 (0.001), s = 7 (0.006) and
    s = 12345 (9.876, where the product is not yet that float); and
    s = 10000 gives a duration of 100 minutes and a distance of 8.0. *)
Theorem activity_entry_fields (W : World) (h : Host.FitbitHost) (s : State)
  (steps : option Z) (date : option string) (start : option pyval) :
  let stp := effective_steps h steps in
  let minutes := Z.max (stp / 100) 1 in
  1 <= stp ->
  (100 * (stp / 100) <= stp < 100 * (stp / 100) + 100 /\
   Host.duration_minutes stp = minutes) /\
  (exists sent,
     net_calls (log (final (Host.log_steps W h steps date start) s)) =
       (net_calls (log s) ++ sent)%list /\
     (stp < 2 ^ 1024 - 2 ^ 970 ->
      exists data more,
        sent = Host.activity_request h (Host.access_token h) data :: more) /\
     (forall q, In q sent -> q <> Host.refresh_request h ->
        exists f x,
          float_of_int stp = Some f /\
          dict_get "durationMillis" (form q) =
            Some (PInt (minutes * 60 * 1000)) /\
          dict_get "distance" (form q) = Some (PFloat x) /\
          rounded_to_thousandths (PrimFloat.mul f Host.km_per_step) x /\
          dict_get "steps" (form q) = Some (PInt stp) /\
          dict_get "activityId" (form q) = Some (PInt 90013))) /\
  Host.km_per_step = (8 / 10000)%float /\
  Host.distance 1 = Some (1 / 1000)%float /\
  Host.distance 7 = Some (6 / 1000)%float /\
  Host.distance 12345 = Some (9876 / 1000)%float /\
  PrimFloat.eqb (PrimFloat.mul 12345 Host.km_per_step) (9876 / 1000) = false /\
  (stp = 10000 ->
   minutes = 100 /\ Host.distance stp = Some 8%float).
Proof.
  intros stp minutes Hpos. split; [| split].
  - split; [| reflexivity].
    pose proof (Z.div_mod stp 100 ltac:(lia)).
    pose proof (Z.mod_pos_bound stp 100 ltac:(lia)). lia.
  - rewrite log_steps_net_calls. fold stp.
    destruct (Host.distance stp) as [dist |] eqn:Hd.
    + eexists. split; [reflexivity |]. split.
      * intros _.
        destruct (submission_calls_shape W (calls s) h
                    (Host.activity_data stp (effective_date W s date)
                       (effective_start h start) dist)) as (more & -> & _).
        eauto.
      * intros q Hq Hne.
        destruct (submission_calls_members _ _ _ _ _ Hq) as [-> | [tok ->]];
          [congruence |].
        destruct (distance_value _ _ Hd) as (f & Hf & ->).
        exists f, (round (PrimFloat.mul f Host.km_per_step) 3).
        split; [exact Hf |]. split; [reflexivity |]. split; [reflexivity |].
        split; [apply round_thousandths |]. split; reflexivity.
    + exists []. split; [reflexivity |]. split.
      * intros Hlt. destruct (distance_in_range stp) as [x Hx]; [lia |].
        congruence.
      * intros q [].
  - split; [vm_compute; reflexivity |].
    split; [vm_compute; reflexivity |].
    split; [vm_compute; reflexivity |].
    split; [vm_compute; reflexivity |].
    split; [vm_compute; reflexivity |].
    intros ->. split; vm_compute; reflexivity.
Qed.

(** ** A run that needs no refresh *)

(** What a successful [FitbitHost()] read from the two files. *)
Lemma init_inv (W : World) (s : State) (h : Host.FitbitHost) :
  outcome (Host.init W) s = Ok h ->
  exists cfg tok,
    fs s !! CONFIG_FILE = Some (Json (PDict cfg)) /\
    fs s !! TOKEN_FILE = Some (Json (PDict tok)) /\
    dict_get "client_id" cfg = Some (Host.client_id h) /\
    dict_get "client_secret" cfg = Some (Host.client_secret h) /\
    int (int_of_text W) (default (PInt 10000) (dict_get "daily_steps" cfg)) =
      Ok (Host.daily_steps h) /\
    Host.start_time h = default (PStr "08:00") (dict_get "start_time" cfg) /\
    Host.access_token h = default PNone (dict_get "access_token" tok) /\
    Host.refresh_token h = default PNone (dict_get "refresh_token" tok).
Proof.
  unfold Host.init, Host.load_config, Host.load_tokens. unfold_prims. cbn.
  destruct (fs s !! CONFIG_FILE) as [[cfg | raw] |] eqn:Hcfg; cbn;
    rewrite ?Hcfg; cbn; try discriminate.
  destruct (getitem cfg "client_id") as [cid | e] eqn:Hcid; cbn;
    [| discriminate].
  destruct (getitem_dict _ _ _ Hcid) as (c & -> & Hc1). cbn in *.
  destruct (dict_get "client_secret" c) as [csec |] eqn:Hc2; cbn;
    [| discriminate].
  destruct (int _) as [n | e] eqn:Hn; cbn; [| discriminate].
  destruct (fs s !! TOKEN_FILE) as [[tok | raw] |] eqn:Htok; cbn;
    rewrite ?Htok; cbn; try discriminate.
  destruct tok; cbn; try discriminate.
  intros [= <-]. cbn. exists c, d. repeat split; auto.
Qed.

(** C7: with configuration and credential record loaded, the probe
    answered 200 and the submission answered 201 with body
    {"activityLog": {"logId": 123}}, the run returns normally, prints
    the line "logId: 123" and then "Done.", writes no file, and leaves
    the file system, the credential record included, as it was. *)
Theorem clean_run_leaves_record (W : World) (files : gmap string content)
  (h : Host.FitbitHost) (dist : float) (r0 r1 : response) :
  let probe := Host.probe_request h (utcnow_at W 1) in
  let today := ymd (utcnow_at W 2) in
  let entry :=
    Host.activity_request h (Host.access_token h)
      (Host.activity_data (Host.daily_steps h) today (Host.start_time h)
         dist) in
  let s' := final (Host.main W) (initial files) in
  outcome (Host.init W) (initial files) = Ok h ->
  Host.distance (Host.daily_steps h) = Some dist ->
  send W 0 probe = Some r0 -> status_code r0 = 200 ->
  send W 1 entry = Some r1 -> status_code r1 = 201 ->
  body r1 = Json (PDict [("activityLog", PDict [("logId", PInt 123)])]) ->
  outcome (Host.main W) (initial files) = Ok tt /\
  log s' =
    [Printed [Lit "Running at"; Lit (isoformat (utcnow_at W 0) ++ "Z")];
     Net probe;
     Net entry;
     Printed [Lit "Logged steps:"; Str (PInt (Host.daily_steps h));
              Lit "date:"; Lit today];
     Printed [Lit "logId:"; Str (PInt 123)];
     Printed [Lit "Done."]] /\
  render_line [Lit "logId:"; Str (PInt 123)] = Some "logId: 123" /\
  writes (log s') = [] /\
  fs s' = files /\
  fs s' !! TOKEN_FILE = files !! TOKEN_FILE.
Proof.
  intros probe today entry s' Hi Hd Hp H200 Hs H201 Hb. subst s'.
  assert (Hrun : Host.main W (initial files) =
    (Ok tt,
     {| fs := files; clock := 3; calls := 2;
        log := [Printed [Lit "Running at";
                         Lit (isoformat (utcnow_at W 0) ++ "Z")];
                Net probe; Net entry;
                Printed [Lit "Logged steps:"; Str (PInt (Host.daily_steps h));
                         Lit "date:"; Lit today];
                Printed [Lit "logId:"; Str (PInt 123)];
                Printed [Lit "Done."]] |})).
  { rewrite (main_run W files h Hi). unfold bind at 1.
    rewrite (refresh_if_needed_run W h (started W files) r0 Hp).
    rewrite H200. cbn [Z.eqb Pos.eqb]. unfold ret at 1. cbv beta iota.
    cbn [negb]. unfold bind at 1. rewrite log_steps_run.
    unfold Host.submit. cbn [effective_steps]. rewrite Hd.
    unfold_prims. cbn. fold today. fold entry. rewrite Hs. cbn.
    rewrite H201. cbn. unfold Host.log_outcome. unfold_prims.
    rewrite H201, Hb. cbn. reflexivity. }
  unfold outcome, final. rewrite Hrun. cbn. repeat split; reflexivity.
Qed.

(** ** Exit status *)

Arguments Login.do_GET : simpl never.

Section AuthorizerRuns.
Variables (W : World) (files : gmap string content).
Variables (cfg : list (string * pyval)) (cid csec : pyval).

Hypothesis Hcfg : files !! CONFIG_FILE = Some (Json (PDict cfg)).
Hypothesis Hcid : dict_get "client_id" cfg = Some cid.
Hypothesis Hcsec : dict_get "client_secret" cfg = Some csec.

Let redirect : pyval :=
  match dict_get "redirect_uri" cfg with
  | Some uri => uri
  | None => PStr "http://127.0.0.1:8080/"
  end.


End AuthorizerRuns.

Section RunnerRuns.
Variables (W : World) (files : gmap string content) (h : Host.FitbitHost).
Hypothesis Hinit : outcome (Host.init W) (initial files) = Ok h.

End RunnerRuns.

(** ** The callback handler *)

Lemma cut_none (c : ascii) (s : string) :
  Login.cut c s = None <-> no_char c s.
Proof.
  unfold no_char. induction s as [| a s IH]; cbn.
  - split; [| reflexivity]. intros _ [| b l] r; discriminate.
  - destruct (Ascii.eqb a c) eqn:E.
    + apply Ascii.eqb_eq in E. subst a. split; [discriminate |].
      intros H. destruct (H EmptyString s). reflexivity.
    + apply Ascii.eqb_neq in E.
      destruct (Login.cut c s) as [[l r] |] eqn:Hc.
      * split; [discriminate |]. intros H. exfalso.
        assert (Habs : Some (l, r) = None); [| discriminate].
        apply IH. intros l' r' ->. apply (H (String a l') r'). reflexivity.
      * split; [| reflexivity]. intros _ l r Heq.
        destruct l as [| b l]; cbn in Heq.
        -- injection Heq as -> _. congruence.
        -- injection Heq as _ ->. apply (proj1 IH eq_refl l r). reflexivity.
Qed.

Lemma cut_some (c : ascii) (s l r : string) :
  Login.cut c s = Some (l, r) <-> s = l ++ String c r /\ no_char c l.
Proof.
  revert l. induction s as [| a s IH]; intros l; cbn.
  - split; [discriminate |]. intros [H _]. destruct l; discriminate.
  - destruct (Ascii.eqb a c) eqn:E.
    + apply Ascii.eqb_eq in E. subst a. split.
      * intros [= <- <-]. split; [reflexivity |].
        intros l r'. destruct l; discriminate.
      * intros [H Hl]. destruct l as [| b l]; cbn in H.
        -- injection H as ->. reflexivity.
        -- injection H as <- ->. destruct (Hl EmptyString l). reflexivity.
    + apply Ascii.eqb_neq in E.
      destruct (Login.cut c s) as [[l0 r0] |] eqn:Hc.
      * split.
        -- intros [= <- <-]. destruct (proj1 (IH l0) eq_refl) as [-> Hn].
           split; [reflexivity |].
           intros l r Heq. destruct l as [| b l]; cbn in Heq.
           ++ injection Heq as -> _. congruence.
           ++ injection Heq as _ ->. apply (Hn l r). reflexivity.
        -- intros [H Hl]. destruct l as [| b l]; cbn in H.
           ++ injection H as -> _. congruence.
           ++ injection H as <- ->.
              assert (Hl' : no_char c l).
              { intros l' r' ->. apply (Hl (String a l') r'). reflexivity. }
              pose proof (proj2 (IH l) (conj eq_refl Hl')) as Hs.
              congruence.
      * split; [discriminate |]. intros [H Hl].
        destruct l as [| b l]; cbn in H.
        -- injection H as -> _. congruence.
        -- injection H as <- ->.
           assert (Hl' : no_char c l).
           { intros l' r' ->. apply (Hl (String a l') r'). reflexivity. }
           pose proof (proj2 (IH l) (conj eq_refl Hl')) as Hs.
           congruence.
Qed.

Lemma parse_field_code (field value : string) :
  code_field field value <->
  exists name, Login.parse_field field = Some (name, value) /\ name = "code".
Proof.
  unfold code_field, Login.parse_field. split.
  - intros (name & raw & Hf & Hn & Hraw & Hcode & ->).
    rewrite (proj2 (cut_some "=" field name raw) (conj Hf Hn)).
    destruct (String.eqb raw "") eqn:E.
    + apply String.eqb_eq in E. contradiction.
    + rewrite Hcode. eauto.
  - intros (name & H & ->).
    destruct (Login.cut "=" field) as [[n raw] |] eqn:Hc; [| discriminate].
    destruct (String.eqb raw "") eqn:E; [discriminate |].
    apply String.eqb_neq in E. injection H as Hn <-.
    destruct (proj1 (cut_some _ _ _ _) Hc) as [Hf Hno].
    exists n, raw. auto.
Qed.

Lemma values_of_cons (name k v : string) (pairs : list (string * string)) :
  values_of name ((k, v) :: pairs) =
    if String.eqb name k then v :: values_of name pairs
    else values_of name pairs.
Proof.
  unfold values_of. cbn [List.filter fst].
  destruct (String.eqb name k); reflexivity.
Qed.

Lemma parse_fields_cons (f : string) (fields : list string) :
  Login.parse_fields (f :: fields) =
    match Login.parse_field f with
    | Some nv => nv :: Login.parse_fields fields
    | None => Login.parse_fields fields
    end.
Proof. reflexivity. Qed.

Lemma values_no_code (fields : list string) :
  (forall g v, In g fields -> ~ code_field g v) ->
  values_of "code" (Login.parse_fields fields) = [].
Proof.
  induction fields as [| f fields IH]; intros H; [reflexivity |].
  assert (IH' := IH (fun g v Hg => H g v (or_intror Hg))).
  rewrite parse_fields_cons.
  destruct (Login.parse_field f) as [[n v] |] eqn:Hf; [| exact IH'].
  rewrite values_of_cons.
  destruct (String.eqb "code" n) eqn:E; [| exact IH'].
  apply String.eqb_eq in E. subst n. exfalso.
  apply (H f v (or_introl eq_refl)). apply parse_field_code. eauto.
Qed.

Lemma values_first_code (pre post : list string) (field value : string) :
  code_field field value ->
  (forall g v, In g pre -> ~ code_field g v) ->
  values_of "code" (Login.parse_fields (pre ++ field :: post)) =
    value :: values_of "code" (Login.parse_fields post).
Proof.
  intros Hf. apply parse_field_code in Hf as (name & Hp & ->).
  induction pre as [| g pre IH]; intros H.
  - cbn [app]. rewrite parse_fields_cons, Hp, values_of_cons. reflexivity.
  - assert (IH' := IH (fun g v Hg => H g v (or_intror Hg))).
    change ((g :: pre) ++ field :: post)%list
      with (g :: (pre ++ field :: post))%list.
    rewrite parse_fields_cons.
    destruct (Login.parse_field g) as [[n v] |] eqn:Hg; [| exact IH'].
    rewrite values_of_cons.
    destruct (String.eqb "code" n) eqn:E; [| exact IH'].
    apply String.eqb_eq in E. subst n. exfalso.
    apply (H g v (or_introl eq_refl)). apply parse_field_code. eauto.
Qed.

Lemma lookup_add_value (name k v : string) (d : list (string * list string)) :
  Login.lookup_values name (Login.add_value k v d) =
    if String.eqb name k
    then Some (match Login.lookup_values name d with
               | Some vs => vs ++ [v]
               | None => [v]
               end)%list
    else Login.lookup_values name d.
Proof.
  induction d as [| [k' vs] d IH]; cbn.
  - destruct (String.eqb name k); reflexivity.
  - destruct (String.eqb k k') eqn:Ek; cbn.
    + apply String.eqb_eq in Ek. subst k'.
      destruct (String.eqb name k); reflexivity.
    + destruct (String.eqb name k') eqn:En; [| exact IH].
      apply String.eqb_eq in En. subst k'.
      rewrite String.eqb_sym in Ek. rewrite Ek. reflexivity.
Qed.

Lemma lookup_parse_fold (name : string) (pairs : list (string * string))
  (d : list (string * list string)) :
  Login.lookup_values name
    (fold_left (fun d nv => Login.add_value (fst nv) (snd nv) d) pairs d) =
  match Login.lookup_values name d, values_of name pairs with
  | Some vs, more => Some (vs ++ more)%list
  | None, [] => None
  | None, more => Some more
  end.
Proof.
  revert d. induction pairs as [| [k v] pairs IH]; intros d.
  - cbn [fold_left]. change (values_of name []) with (@nil string).
    destruct (Login.lookup_values name d); [rewrite app_nil_r |]; reflexivity.
  - cbn [fold_left fst snd]. rewrite IH, lookup_add_value, values_of_cons.
    destruct (String.eqb name k).
    + destruct (Login.lookup_values name d);
        [rewrite <- app_assoc |]; reflexivity.
    + reflexivity.
Qed.

Lemma cut_app (c : ascii) (a b : string) :
  Login.cut c a = None ->
  Login.cut c (a ++ b) =
    match Login.cut c b with
    | Some (l, r) => Some (a ++ l, r)
    | None => None
    end.
Proof.
  induction a as [| x a IH].
  - intros _. change (EmptyString ++ b) with b.
    destruct (Login.cut c b) as [[l r] |]; reflexivity.
  - change (String x a ++ b) with (String x (a ++ b)).
    cbn [Login.cut]. destruct (Ascii.eqb x c); [discriminate |].
    destruct (Login.cut c a) as [[l r] |] eqn:Ha; [discriminate |].
    intros _. rewrite (IH eq_refl).
    destruct (Login.cut c b) as [[l r] |]; reflexivity.
Qed.

Lemma append_empty_r (s : string) : s ++ EmptyString = s.
Proof.
  induction s as [| c s IH]; [reflexivity |].
  change (String c s ++ EmptyString) with (String c (s ++ EmptyString)).
  rewrite IH. reflexivity.
Qed.

(** The query of [u?q] and of [u?q#f]. *)
Lemma query_part_target (path u q : string) :
  target_with_query path u q -> Login.query_part path = q.
Proof.
  intros (Hpath & Hu1 & Hu2 & Hq).
  apply cut_none in Hu1, Hu2, Hq. unfold Login.query_part.
  destruct Hpath as [-> | [f ->]].
  - rewrite (cut_app "#" u _ Hu2). cbn. rewrite Hq.
    rewrite (cut_app "?" u _ Hu1). cbn. reflexivity.
  - rewrite (cut_app "#" u _ Hu2). cbn.
    rewrite (cut_app "#" q _ Hq). cbn.
    rewrite (cut_app "?" u _ Hu1). cbn. apply append_empty_r.
Qed.

(** A target in origin form has neither scheme nor netloc. *)
Lemma origin_form_query (W : World) (path : string) :
  Login.origin_form path = true ->
  Login.untrimmed path = true ->
  Login.urlparse_query W path = Some (Login.query_part path).
Proof.
  intros Ho Hu. unfold Login.urlparse_query, Login.urlsplit_query.
  rewrite Hu. cbn [negb].
  destruct path as [| c path]; [discriminate |].
  destruct (Ascii.eqb_spec c "/") as [-> | Hne].
  2:{ exfalso. revert Ho. unfold Login.origin_form.
      destruct c as [[] [] [] [] [] [] [] []]; try discriminate;
        congruence. }
  assert (Hs : Login.after_scheme (String "/" path) = Some (String "/" path)).
  { unfold Login.after_scheme.
    destruct (Login.cut ":" (String "/" path)) as [[pre rest] |] eqn:Hc;
      [| reflexivity].
    cbn in Hc. destruct (Login.cut ":" path) as [[l r] |]; [| discriminate].
    injection Hc as <- <-. reflexivity. }
  rewrite Hs. destruct path as [| d path]; [reflexivity |].
  destruct (Ascii.eqb_spec d "/") as [-> | Hd]; [discriminate |].
  destruct d as [[] [] [] [] [] [] [] []]; try reflexivity. congruence.
Qed.

(** [do_GET] in terms of the values filed under "code". *)
Lemma do_GET_values (W : World) (path : string) (prior : option string) :
  Login.do_GET W path prior =
    match Login.urlparse_query W path with
    | None => (prior, Raise (Exception "ValueError"))
    | Some query =>
        match values_of "code" (Login.parse_qsl query) with
        | v :: _ => (Some v, Ok Login.success_page)
        | [] => (prior, Ok Login.failure_page)
        end
    end.
Proof.
  unfold Login.do_GET.
  destruct (Login.urlparse_query W path) as [query |]; [| reflexivity].
  unfold Login.parse_qs. rewrite lookup_parse_fold. cbn.
  destruct (values_of _ _); reflexivity.
Qed.

(** C8, as amended: for every GET the handler sees.  When [urlparse]
    rejects the target, the handler dies without answering and the
    captured code is left as it was.  Otherwise split the query at [&];
    if some field reads name=value with a name that decodes to "code"
    and a non-empty value (the first such field counts), the decoded
    value is captured and the answer is the 200 page; if no field does,
    the answer is the 400 page and the captured code is left as it was.
    For a target in origin form, [/path?query] or [/path?query#fragment]
    (without tab, CR or LF), the query is the text between the first [?]
    and the first [#]. *)
Theorem callback_captures_code (W : World) (path : string)
  (prior : option string) :
  (Login.urlparse_query W path = None ->
   Login.do_GET W path prior = (prior, Raise (Exception "ValueError"))) /\
  (forall query,
     Login.urlparse_query W path = Some query ->
     (forall pre field post value,
        Login.split "&" query = (pre ++ field :: post)%list ->
        code_field field value ->
        (forall g v, In g pre -> ~ code_field g v) ->
        Login.do_GET W path prior = (Some value, Ok Login.success_page)) /\
     ((forall g v, In g (Login.split "&" query) -> ~ code_field g v) ->
      Login.do_GET W path prior = (prior, Ok Login.failure_page))) /\
  (forall u q,
     Login.origin_form path = true ->
     Login.untrimmed path = true ->
     target_with_query path u q ->
     Login.urlparse_query W path = Some q) /\
  Login.reply_status Login.success_page = 200 /\
  Login.reply_status Login.failure_page = 400.
Proof.
  split; [| split; [| split; [| split; reflexivity]]].
  - intros Hq. rewrite do_GET_values, Hq. reflexivity.
  - intros query Hq. split.
    + intros pre field post value Hsplit Hf Hpre.
      rewrite do_GET_values, Hq. unfold Login.parse_qsl. rewrite Hsplit.
      rewrite (values_first_code pre post field value Hf Hpre). reflexivity.
    + intros Hnone. rewrite do_GET_values, Hq. unfold Login.parse_qsl.
      rewrite (values_no_code _ Hnone). reflexivity.
  - intros u q Ho Hu Ht.
    rewrite (origin_form_query W path Ho Hu).
    rewrite (query_part_target path u q Ht). reflexivity.
Qed.

(** C10: every file the Runner writes during a run is the credential
    record with exactly the keys access_token, refresh_token and
    updated_at; after a refresh that reports success the stored record
    has no scope, token_type or expires_in, whatever was stored before,
    while the Authorizer's record has these three keys as well. *)
Theorem runner_persists_three_keys (W : World) (files : gmap string content) :
  (forall p v,
     In (p, v) (writes (log (final (Host.main W) (initial files)))) ->
     p = TOKEN_FILE /\
     exists d, v = PDict d /\
               keys d = ["access_token"; "refresh_token"; "updated_at"]) /\
  (forall h h' s,
     outcome (Host.refresh_access_token W h) s = Ok (true, h') ->
     exists d,
       fs (final (Host.refresh_access_token W h) s) !! TOKEN_FILE =
         Some (Json (PDict d)) /\
       keys d = ["access_token"; "refresh_token"; "updated_at"] /\
       dict_get "scope" d = None /\
       dict_get "token_type" d = None /\
       dict_get "expires_in" d = None) /\
  (forall data s,
     outcome (Login.save_tokens W data) s = Ok tt ->
     exists d,
       fs (final (Login.save_tokens W data) s) !! TOKEN_FILE =
         Some (Json (PDict d)) /\
       keys d = ["access_token"; "refresh_token"; "scope"; "token_type";
                 "expires_in"; "updated_at"]).
Proof.
  split; [| split].
  - intros p v Hin.
    assert (Hok : writes_ok (final (Host.main W) (initial files))).
    { apply writes_ok_main. constructor. }
    unfold writes_ok in Hok. rewrite Forall_forall in Hok.
    destruct (Hok (p, v)) as [Hp (a & r & t & Hv)];
      [apply list_elem_of_In; exact Hin |].
    cbn in Hp, Hv. split; [exact Hp |]. subst v. eexists. split; reflexivity.
  - intros h h' s Hok.
    destruct (refresh_true_inv W h h' s Hok) as (rr & d & a & Hs & H200 & Hb & Ha).
    unfold final. rewrite (refresh_success W h s rr d a Hs H200 Hb Ha). cbn.
    rewrite lookup_insert_eq. eexists. split; [reflexivity |].
    repeat split.
  - intros data s. unfold outcome, final, Login.save_tokens. unfold_prims.
    destruct (getitem data "access_token") as [a | e]; cbn; [| discriminate].
    destruct (get data "refresh_token" PNone) as [r | e]; cbn; [| discriminate].
    destruct (get data "scope" PNone) as [sc | e]; cbn; [| discriminate].
    destruct (get data "token_type" PNone) as [ty | e]; cbn; [| discriminate].
    destruct (get data "expires_in" PNone) as [ex | e]; cbn; [| discriminate].
    intros _. rewrite lookup_insert_eq. eexists. split; reflexivity.
Qed.


(** * Concrete runs *)


(** C1, counterexample: a refresh answered 200 with a body that has no
    refresh_token replaces the persisted refresh token "R1" by None; the
    prior value is not retained. *)
Lemma refresh_without_token_stores_null :
  let W := Scenario.refresh_without_token in
  let s' := final (Host.main W) (initial Scenario.files) in
  persisted "refresh_token" (initial Scenario.files) = Some (PStr "R1") /\
  nth_error (net_calls (log s')) 1 = Some (Host.refresh_request Scenario.host) /\
  send W 1 (Host.refresh_request Scenario.host) =
    Some (Scenario.reply 200 (PDict [("access_token", PStr "A2")])) /\
  outcome (Host.main W) (initial Scenario.files) = Ok tt /\
  persisted "access_token" s' = Some (PStr "A2") /\
  persisted "refresh_token" s' = Some PNone /\
  persisted "refresh_token" s' <>
    persisted "refresh_token" (initial Scenario.files).
Proof. vm_compute. repeat split. discriminate. Qed.


(** C3, counterexample: the first submission is answered 401, the one
    refresh attempt is refused, and no resubmission follows: the run's
    calls are the probe, one submission and the refresh. *)
Lemma failed_refresh_no_resubmission :
  let W := Scenario.retry_refused in
  send W 1 (Scenario.entry (PStr "A1")) = Some (Scenario.reply 401 (PDict [])) /\
  net_calls (log (final (Host.main W) (initial Scenario.files))) =
    [Host.probe_request Scenario.host Scenario.now;
     Scenario.entry (PStr "A1");
     Host.refresh_request Scenario.host] /\
  last (log (final (Host.main W) (initial Scenario.files))) =
    Some (Printed [Lit "Failed."]).
Proof. vm_compute. repeat split. Qed.

(** C8, counterexample: the query of [GET /?code=] has a [code]
    parameter, with a blank value; the handler answers 400 and captures
    nothing.  And the query of [GET http://[x/?code=abc] has a [code]
    parameter with a value, but [urlparse] rejects the target (a netloc
    with an opening bracket only): the handler captures nothing and
    answers neither page. *)
Lemma blank_code_rejected :
  Login.urlparse_query Scenario.silent "/?code=" = Some "code=" /\
  Login.cut "=" "code=" = Some ("code", "") /\
  Login.do_GET Scenario.silent "/?code=" None = (None, Ok Login.failure_page) /\
  Login.reply_status Login.failure_page = 400 /\
  Login.urlsplit_query "http://[x/?code=abc" = Login.Invalid /\
  Login.do_GET Scenario.silent "http://[x/?code=abc" None =
    (None, Raise (Exception "ValueError")).
Proof. vm_compute. repeat split. Qed.

(** * Instances of the theorems on the concrete runs *)

Lemma missing_record_no_network_witness :
  net_calls (log (final (Host.main Scenario.silent)
                    (initial Scenario.only_config))) = [] /\
  net_calls (log (final (Login.script Scenario.silent) (initial ∅))) = [].
Proof.
  split.
  - assert (Hm : Scenario.only_config !! CONFIG_FILE = None \/
                 Scenario.only_config !! TOKEN_FILE = None)
      by (right; vm_compute; reflexivity).
    exact (proj1 (proj2 (missing_record_no_network Scenario.silent
                           Scenario.only_config Hm))).
  - assert (Hc : (∅ : gmap string content) !! CONFIG_FILE = None)
      by (vm_compute; reflexivity).
    exact (proj1 (proj2 (proj2 (proj2 (proj2
             (missing_record_no_network Scenario.silent ∅ (or_introl Hc))))
             Hc))).
Defined.

Lemma missing_config_writes_sample_witness :
  fs (final (Login.script Scenario.silent) (initial ∅)) !! CONFIG_FILE =
    Some (Json Login.sample_config).
Proof.
  assert (Hc : (∅ : gmap string content) !! CONFIG_FILE = None)
    by (vm_compute; reflexivity).
  exact (proj1 (proj2 (proj2 (proj2
           (missing_config_writes_sample Scenario.silent ∅ Hc))))).
Defined.

Lemma refresh_rewrites_record_witness :
  let W := Scenario.scripted
             [Scenario.reply 200 (PDict [("access_token", PStr "A2");
                                         ("refresh_token", PStr "R2")])]
             Silence in
  fs (final (Host.refresh_access_token W Scenario.host)
        (initial Scenario.files)) !! TOKEN_FILE =
    Some (Json (PDict [("access_token", PStr "A2");
                       ("refresh_token", PStr "R2");
                       ("updated_at", PStr "2024-05-06T07:08:09.123456Z")])).
Proof.
  intros W.
  apply (refresh_rewrites_record W Scenario.host (initial Scenario.files)
           (Scenario.reply 200 (PDict [("access_token", PStr "A2");
                                       ("refresh_token", PStr "R2")]))
           [("access_token", PStr "A2"); ("refresh_token", PStr "R2")]
           (PStr "A2")); reflexivity.
Defined.


Lemma submission_401_single_retry_witness :
  let W := Scenario.scripted
             [Scenario.reply 401 (PDict []);
              Scenario.reply 200 (PDict [("access_token", PStr "A2")]);
              Scenario.reply 401 (PDict [])]
             Silence in
  net_calls (log (final (Host.log_steps W Scenario.host None None None)
                    (initial Scenario.files))) =
    [Scenario.entry (PStr "A1");
     Host.refresh_request Scenario.host;
     Scenario.entry (PStr "A2")].
Proof.
  intros W.
  apply (submission_401_single_retry W Scenario.host (initial Scenario.files)
           None None None 8%float (Scenario.reply 401 (PDict [])));
    vm_compute; reflexivity.
Defined.


Lemma activity_entry_fields_witness :
  Host.duration_minutes 10000 = 100 /\
  Host.distance 10000 = Some 8%float.
Proof.
  pose proof (activity_entry_fields Scenario.clean Scenario.host
                (initial Scenario.files) None None None) as H.
  cbn zeta in H. specialize (H ltac:(cbn; lia)).
  destruct H as ([_ Hd] & _ & _ & _ & _ & _ & _ & Hex). split.
  - exact Hd.
  - apply Hex. reflexivity.
Defined.

Lemma clean_run_leaves_record_witness :
  outcome (Host.main Scenario.clean) (initial Scenario.files) = Ok tt /\
  fs (final (Host.main Scenario.clean) (initial Scenario.files)) =
    Scenario.files.
Proof.
  destruct (clean_run_leaves_record Scenario.clean Scenario.files
              Scenario.host 8%float (Scenario.reply 200 (PDict []))
              (Scenario.reply 201
                 (PDict [("activityLog", PDict [("logId", PInt 123)])])))
    as (Ho & _ & _ & _ & Hf & _); try (vm_compute; reflexivity).
  split; [exact Ho | exact Hf].
Defined.

Lemma callback_captures_code_witness :
  Login.do_GET Scenario.silent "/?state=1&code=abc" None =
    (Some "abc", Ok Login.success_page) /\
  Login.do_GET Scenario.silent "/?error=access_denied" (Some "old") =
    (Some "old", Ok Login.failure_page) /\
  Login.urlparse_query Scenario.silent "/cb?code=abc#top" = Some "code=abc".
Proof.
  split; [| split].
  - apply (proj1 (proj1 (proj2 (callback_captures_code Scenario.silent
                                  "/?state=1&code=abc" None))
                    "state=1&code=abc" eq_refl)
             ["state=1"] "code=abc" [] "abc"); [reflexivity | |].
    + exists "code", "abc".
      split; [reflexivity |]. split; [apply cut_none; reflexivity |].
      split; [discriminate |]. split; reflexivity.
    + intros g v [<- | []] Hc. apply parse_field_code in Hc as (n & Hp & ->).
      vm_compute in Hp. discriminate.
  - apply (proj2 (proj1 (proj2 (callback_captures_code Scenario.silent
                                  "/?error=access_denied" (Some "old")))
                    "error=access_denied" eq_refl)).
    intros g v [<- | []] Hc. apply parse_field_code in Hc as (n & Hp & ->).
    vm_compute in Hp. discriminate.
  - apply (proj1 (proj2 (proj2 (callback_captures_code Scenario.silent
                                  "/cb?code=abc#top" None)))
             "/cb" "code=abc"); [reflexivity | reflexivity |].
    split; [right; exists "top"; reflexivity |].
    split; [| split]; apply cut_none; reflexivity.
Defined.

Lemma runner_persists_three_keys_witness :
  (exists d,
     fs (final (Host.refresh_access_token
                  (Scenario.scripted
                     [Scenario.reply 200 (PDict [("access_token", PStr "A2")])]
                     Silence)
                  Scenario.host) (initial Scenario.files)) !! TOKEN_FILE =
       Some (Json (PDict d)) /\
     dict_get "scope" d = None) /\
  (forall p v,
     In (p, v) (writes (log (final (Host.main Scenario.refresh_with_token)
                               (initial Scenario.files)))) ->
     p = TOKEN_FILE).
Proof.
  split.
  - destruct (proj1 (proj2 (runner_persists_three_keys
                (Scenario.scripted
                   [Scenario.reply 200 (PDict [("access_token", PStr "A2")])]
                   Silence) Scenario.files))
                Scenario.host
                (Host.set_tokens Scenario.host (PStr "A2") PNone)
                (initial Scenario.files) eq_refl)
      as (d & Hd & _ & Hs & _).
    exists d. split; [exact Hd | exact Hs].
  - intros p v Hin.
    apply (proj1 (runner_persists_three_keys Scenario.refresh_with_token
                    Scenario.files) p v Hin).
Defined.

(** * Further properties of the two scripts *)

(** ** Persisting and reloading tokens *)

(** The record the Authorizer writes is one the Runner can load: when
    [save_tokens] of the Authorizer succeeds, the token data is a JSON
    object with an access_token, and [load_tokens] of the Runner returns
    that access token and the data's refresh_token (None when absent);
    when it does not succeed, no file is written. *)
Theorem authorizer_record_loads (W : World) (data : pyval) (s : State) :
  (outcome (Login.save_tokens W data) s = Ok tt ->
   exists d a,
     data = PDict d /\
     dict_get "access_token" d = Some a /\
     outcome Host.load_tokens (final (Login.save_tokens W data) s) =
       Ok (a, default PNone (dict_get "refresh_token" d))) /\
  (outcome (Login.save_tokens W data) s <> Ok tt ->
   fs (final (Login.save_tokens W data) s) = fs s /\
   log (final (Login.save_tokens W data) s) = log s).
Proof.
  unfold outcome, final, Login.save_tokens, Host.load_tokens. unfold_prims.
  destruct (getitem data "access_token") as [a | e] eqn:Ha; cbn.
  - destruct (getitem_dict _ _ _ Ha) as (d & -> & Hd). cbn. split.
    + intros _. exists d, a. rewrite lookup_insert_eq. cbn.
      rewrite lookup_insert_eq. cbn.
      destruct (dict_get "refresh_token" d); auto.
    + intros H. congruence.
  - split; [discriminate | auto].
Qed.

(** A refresh that does not report success leaves the files, the list
    of writes and the host's tokens as they were. *)
Theorem failed_refresh_changes_nothing (W : World) (h : Host.FitbitHost)
  (s : State) :
  (forall h', outcome (Host.refresh_access_token W h) s <> Ok (true, h')) ->
  fs (final (Host.refresh_access_token W h) s) = fs s /\
  writes (log (final (Host.refresh_access_token W h) s)) = writes (log s) /\
  clock (final (Host.refresh_access_token W h) s) = clock s /\
  (forall b h', outcome (Host.refresh_access_token W h) s = Ok (b, h') ->
                b = false /\ h' = h).
Proof.
  unfold outcome, final, Host.refresh_access_token, Host.save_tokens.
  unfold_prims. intros Hno.
  destruct (send W (calls s) (Host.refresh_request h)) as [rr |]; cbn in *.
  2:{ rewrite writes_app, app_nil_r.
      split; [| split; [| split]]; try reflexivity. discriminate. }
  destruct (status_code rr =? 200); cbn in *.
  2:{ rewrite !writes_app, !app_nil_r.
      split; [| split; [| split]]; try reflexivity.
      intros b h' [= <- <-]. auto. }
  destruct (body rr) as [jd | raw]; cbn in *.
  2:{ rewrite writes_app, app_nil_r.
      split; [| split; [| split]]; try reflexivity. discriminate. }
  destruct (getitem jd "access_token") as [a | e]; cbn in *.
  2:{ rewrite writes_app, app_nil_r.
      split; [| split; [| split]]; try reflexivity. discriminate. }
  destruct (get jd "refresh_token" PNone) as [rt | e]; cbn in *.
  2:{ rewrite writes_app, app_nil_r.
      split; [| split; [| split]]; try reflexivity. discriminate. }
  exfalso. eapply Hno. reflexivity.
Qed.

(** ** Submissions that are not retried *)

(** A first submission answered with a status other than 200, 201 and
    401 is reported as a failure at once: one network call, no refresh,
    no write, and the "Log failed:" line carries the status and body. *)
Theorem rejected_entry_not_retried (W : World) (h : Host.FitbitHost)
  (s : State) (steps : option Z) (date : option string)
  (start : option pyval) (dist : float) (r1 : response) :
  let first :=
    Host.activity_request h (Host.access_token h)
      (Host.activity_data (effective_steps h steps)
         (effective_date W s date) (effective_start h start) dist) in
  let run := Host.log_steps W h steps date start in
  Host.distance (effective_steps h steps) = Some dist ->
  send W (calls s) first = Some r1 ->
  status_code r1 <> 200 -> status_code r1 <> 201 -> status_code r1 <> 401 ->
  outcome run s = Ok (false, h) /\
  net_calls (log (final run s)) = (net_calls (log s) ++ [first])%list /\
  writes (log (final run s)) = writes (log s) /\
  fs (final run s) = fs s /\
  last (log (final run s)) =
    Some (Printed [Lit "Log failed:"; Str (PInt (status_code r1));
                   Text (body r1)]).
Proof.
  intros first run Hd Hs H200 H201 H401. subst run.
  unfold outcome, final. rewrite log_steps_run. unfold Host.submit.
  rewrite Hd. unfold_prims.
  replace (calls (after_defaults s date)) with (calls s)
    by (destruct date; reflexivity).
  fold first. rewrite Hs. cbn.
  destruct (status_code r1 =? 401) eqn:E1; [lia |].
  unfold Host.log_outcome. unfold_prims.
  destruct (status_code r1 =? 200) eqn:E2; [lia |].
  destruct (status_code r1 =? 201) eqn:E3; [lia |]. cbn.
  rewrite !net_calls_app, !writes_app, last_snoc. cbn.
  rewrite !app_nil_r. destruct date; repeat split.
Qed.

(** A step count too large for a float stops [log_steps] with
    OverflowError before anything is sent or written. *)
Theorem oversized_steps_send_nothing (W : World) (h : Host.FitbitHost)
  (s : State) (steps : option Z) (date : option string)
  (start : option pyval) :
  let run := Host.log_steps W h steps date start in
  2 ^ 1024 - 2 ^ 970 <= Z.abs (effective_steps h steps) ->
  outcome run s = Raise (Exception "OverflowError") /\
  log (final run s) = log s /\
  fs (final run s) = fs s /\
  calls (final run s) = calls s.
Proof.
  intros run Hbig. subst run.
  unfold outcome, final. rewrite log_steps_run. unfold Host.submit.
  assert (Hd : Host.distance (effective_steps h steps) = None).
  { Transparent Host.distance. unfold Host.distance, float_of_int.
    Opaque Host.distance.
    destruct (2 ^ 1024 - 2 ^ 970 <=? Z.abs (effective_steps h steps)) eqn:E;
      [reflexivity | lia]. }
  rewrite Hd. destruct date; repeat split.
Qed.

(** The derived duration is at least one minute for every integer step
    count, zero and negative ones included, never decreases when the
    steps grow, is exactly one minute below 200 steps and the floor of
    steps/100 from 100 steps on. *)
Theorem duration_at_least_one_minute (a b : Z) :
  a <= b ->
  1 <= Host.duration_minutes a <= Host.duration_minutes b /\
  (a < 200 -> Host.duration_minutes a = 1) /\
  (100 <= a ->
   100 * Host.duration_minutes a <= a < 100 * Host.duration_minutes a + 100).
Proof.
  intros Hab. unfold Host.duration_minutes.
  pose proof (Z.div_le_mono a b 100 ltac:(lia) Hab).
  pose proof (Z.div_mod a 100 ltac:(lia)).
  pose proof (Z.mod_pos_bound a 100 ltac:(lia)).
  repeat split; lia.
Qed.

(** ** Whole runs of the Runner *)

(** An expired token is replaced on the way: with the probe answered
    401, the refresh answered 200 with a JSON object holding an
    access_token, and the submission (sent with the new Bearer token)
    answered 200 or 201 with a JSON object without activityLog, the run
    ends normally with "Done.", makes exactly these three calls, writes
    the credential record once, and the record then holds the new access
    token and the response's refresh token (None when it had none). *)
Theorem expired_token_run (W : World) (files : gmap string content)
  (h : Host.FitbitHost) (dist : float) (r0 rr r2 : response)
  (d d2 : list (string * pyval)) (a : pyval) :
  let rt := match dict_get "refresh_token" d with
            | Some v => v
            | None => PNone
            end in
  let entry :=
    Host.activity_request h a
      (Host.activity_data (Host.daily_steps h) (ymd (utcnow_at W 3))
         (Host.start_time h) dist) in
  let s' := final (Host.main W) (initial files) in
  outcome (Host.init W) (initial files) = Ok h ->
  Host.distance (Host.daily_steps h) = Some dist ->
  send W 0 (Host.probe_request h (utcnow_at W 1)) = Some r0 ->
  status_code r0 = 401 ->
  send W 1 (Host.refresh_request h) = Some rr ->
  status_code rr = 200 ->
  body rr = Json (PDict d) ->
  dict_get "access_token" d = Some a ->
  send W 2 entry = Some r2 ->
  status_code r2 = 200 \/ status_code r2 = 201 ->
  body r2 = Json (PDict d2) ->
  dict_get "activityLog" d2 = None ->
  outcome (Host.main W) (initial files) = Ok tt /\
  net_calls (log s') =
    [Host.probe_request h (utcnow_at W 1); Host.refresh_request h; entry] /\
  writes (log s') = [(TOKEN_FILE, Host.token_record a rt (utcnow_at W 2))] /\
  persisted "access_token" s' = Some a /\
  persisted "refresh_token" s' = Some rt /\
  last (log s') = Some (Printed [Lit "Done."]).
Proof.
  intros rt entry s' Hi Hd Hp H401 Hr H200 Hb Ha Hs Hst Hb2 Hal. subst s'.
  assert (Hrun : exists S,
    Host.main W (initial files) = (Ok tt, S) /\
    fs S = <[TOKEN_FILE := Json (Host.token_record a rt (utcnow_at W 2))]> files /\
    log S =
      [Printed [Lit "Running at"; Lit (isoformat (utcnow_at W 0) ++ "Z")];
       Net (Host.probe_request h (utcnow_at W 1));
       Net (Host.refresh_request h);
       Wrote TOKEN_FILE (Host.token_record a rt (utcnow_at W 2));
       Printed [Lit "Updated fitbit_tokens.json"];
       Net entry;
       Printed [Lit "Logged steps:"; Str (PInt (Host.daily_steps h));
                Lit "date:"; Lit (ymd (utcnow_at W 3))];
       Printed [Lit "Done."]]).
  { eexists. split.
    - rewrite (main_run W files h Hi). unfold bind at 1.
      rewrite (refresh_if_needed_run W h (started W files) r0 Hp).
      rewrite H401. cbn [Z.eqb Pos.eqb].
      rewrite (refresh_success W h (probed W h (started W files)) rr d a
                 Hr H200 Hb Ha).
      cbv beta iota. cbn [negb]. unfold bind at 1. rewrite log_steps_run.
      unfold Host.submit. cbn [effective_steps Host.daily_steps Host.set_tokens].
      rewrite Hd. unfold_prims. cbn.
      assert (Hreq : forall t data,
                Host.activity_request (Host.set_tokens h a t) a data =
                Host.activity_request h a data) by reflexivity.
      rewrite !Hreq. unfold entry in Hs. rewrite Hs. cbn.
      unfold Host.log_outcome. unfold_prims.
      assert (E401 : (status_code r2 =? 401) = false) by lia.
      assert (Eok : ((status_code r2 =? 200) || (status_code r2 =? 201)) = true).
      { destruct Hst as [-> | ->]; reflexivity. }
      rewrite E401, Eok, Hb2. cbn. rewrite Hal. cbn. reflexivity.
    - split; reflexivity. }
  destruct Hrun as (S & Hrun & Hfs & Hlog).
  unfold outcome, final, persisted. rewrite Hrun. cbn [fst snd].
  rewrite Hfs, Hlog, lookup_insert_eq. cbn.
  repeat split.
Qed.

(** An accepted entry with an unreadable answer ends the run badly: when
    the submission is answered 200 or 201 with a body that is not JSON,
    [r.json()] raises after the entry was sent; the run prints neither
    "Done." nor "Failed." and exits with status 1. *)
Theorem accepted_entry_unreadable_answer (W : World)
  (files : gmap string content) (h : Host.FitbitHost) (dist : float)
  (r0 r1 : response) (raw : string) :
  let probe := Host.probe_request h (utcnow_at W 1) in
  let entry :=
    Host.activity_request h (Host.access_token h)
      (Host.activity_data (Host.daily_steps h) (ymd (utcnow_at W 2))
         (Host.start_time h) dist) in
  outcome (Host.init W) (initial files) = Ok h ->
  Host.distance (Host.daily_steps h) = Some dist ->
  send W 0 probe = Some r0 -> status_code r0 <> 401 ->
  send W 1 entry = Some r1 ->
  status_code r1 = 200 \/ status_code r1 = 201 ->
  body r1 = Garbled raw ->
  outcome (Host.main W) (initial files) = Raise (Exception "JSONDecodeError") /\
  exit_status (outcome (Host.main W) (initial files)) = 1 /\
  log (final (Host.main W) (initial files)) =
    [Printed [Lit "Running at"; Lit (isoformat (utcnow_at W 0) ++ "Z")];
     Net probe; Net entry].
Proof.
  intros probe entry Hi Hd Hp Hne Hs Hst Hb.
  assert (Hrun : Host.main W (initial files) =
    (Raise (Exception "JSONDecodeError"),
     {| fs := files; clock := 3; calls := 2;
        log := [Printed [Lit "Running at";
                         Lit (isoformat (utcnow_at W 0) ++ "Z")];
                Net probe; Net entry] |})).
  { rewrite (main_run W files h Hi). unfold bind at 1.
    rewrite (refresh_if_needed_run W h (started W files) r0 Hp).
    destruct (status_code r0 =? 401) eqn:E; [lia |].
    unfold ret at 1. cbv beta iota. cbn [negb]. unfold bind at 1.
    rewrite log_steps_run. unfold Host.submit. cbn [effective_steps].
    rewrite Hd. unfold_prims. cbn. fold entry. rewrite Hs. cbn.
    unfold Host.log_outcome. unfold_prims.
    assert (E401 : (status_code r1 =? 401) = false) by lia.
    assert (Eok : ((status_code r1 =? 200) || (status_code r1 =? 201)) = true).
    { destruct Hst as [-> | ->]; reflexivity. }
    rewrite E401, Eok, Hb. cbn. reflexivity. }
  unfold outcome, final. rewrite Hrun. repeat split.
Qed.

(** ** Bounds on what a run does *)

Arguments weight : simpl never.

Lemma weight_app (cost : event -> nat) (l1 l2 : list event) :
  weight cost (l1 ++ l2) = (weight cost l1 + weight cost l2)%nat.
Proof. unfold weight. rewrite map_app, list_sum_app. reflexivity. Qed.

Lemma weight_net_calls (l : list event) :
  weight net_cost l = length (net_calls l).
Proof.
  induction l as [| e l IH]; [reflexivity |].
  destruct e; cbn in *; rewrite <- ?IH; reflexivity.
Qed.

Lemma weight_writes (l : list event) :
  weight write_cost l = length (writes l).
Proof.
  induction l as [| e l IH]; [reflexivity |].
  destruct e; cbn in *; rewrite <- ?IH; reflexivity.
Qed.

Section Growth.
Variable cost : event -> nat.

Lemma grows_ret {A} (a : A) : grows_by cost 0 (ret a).
Proof using Type. intros s. cbn. lia. Qed.

Lemma grows_raise {A} (e : exn) : grows_by cost 0 (@raise A e).
Proof using Type. intros s. cbn. lia. Qed.

Lemma grows_lift {A} (r : result A) : grows_by cost 0 (lift r).
Proof using Type. intros s. cbn. lia. Qed.

Lemma grows_path_exists (p : string) : grows_by cost 0 (path_exists p).
Proof using Type. intros s. cbn. lia. Qed.

Lemma grows_json_load (p : string) : grows_by cost 0 (json_load p).
Proof using Type.
  intros s. unfold final, json_load.
  destruct (fs s !! p) as [[v | raw] |]; cbn; lia.
Qed.

Lemma grows_response_json (r : response) : grows_by cost 0 (response_json r).
Proof using Type.
  intros s. unfold final, response_json. destruct (body r); cbn; lia.
Qed.

Lemma grows_utcnow (W : World) : grows_by cost 0 (utcnow W).
Proof using Type. intros s. unfold final, utcnow. cbn. lia. Qed.

Lemma grows_print (args : list chunk) :
  grows_by cost (cost (Printed args)) (print args).
Proof using Type.
  intros s. unfold final. cbn. rewrite weight_app. unfold weight. cbn. lia.
Qed.

Lemma grows_send (W : World) (r : request) :
  grows_by cost (cost (Net r)) (requests_send W r).
Proof using Type.
  intros s. unfold final, requests_send.
  destruct (send W (calls s) r); cbn; rewrite weight_app; unfold weight;
    cbn; lia.
Qed.

Lemma grows_dump (p : string) (v : pyval) :
  grows_by cost (cost (Wrote p v)) (json_dump p v).
Proof using Type.
  intros s. unfold final. cbn. rewrite weight_app. unfold weight. cbn. lia.
Qed.

Lemma grows_weaken {A} (n n' : nat) (m : M A) :
  grows_by cost n m -> (n <= n')%nat -> grows_by cost n' m.
Proof using Type. intros H Hle s. specialize (H s). lia. Qed.

Lemma grows_bind {A B} (n1 n : nat) (m : M A) (k : A -> M B) :
  grows_by cost n1 m ->
  (n1 <= n)%nat ->
  (forall a, grows_by cost (n - n1) (k a)) ->
  grows_by cost n (bind m k).
Proof using Type.
  intros Hm Hle Hk s. specialize (Hm s). unfold final, bind in *.
  destruct (m s) as [[a | e] s1]; cbn in *; [| lia].
  specialize (Hk a s1). unfold final in Hk. lia.
Qed.
End Growth.

Create HintDb grows.
#[local] Hint Resolve grows_ret grows_raise grows_lift grows_path_exists
  grows_json_load grows_response_json grows_utcnow grows_print grows_send
  grows_dump : grows.

(** Spend the budget along a program: the head of a bind takes what its
    lemma says, the rest goes to the continuation. *)
Ltac grows :=
  repeat first
    [ eapply grows_bind;
        [ solve [auto with grows] | cbn; lia | intros ?; cbn [Nat.sub] ]
    | match goal with
      | |- grows_by _ _ (match ?x with _ => _ end) => destruct x
      | |- grows_by _ _ (if ?b then _ else _) => destruct b
      | |- grows_by _ _ (let '(_, _) := ?x in _) => destruct x
      end
    | eapply grows_weaken; [ solve [auto with grows] | cbn; lia ]
    | eapply (grows_bind _ 0); [ | cbn; lia | intros ?; cbn [Nat.sub] ] ].

Lemma net_save_tokens W h a r :
  grows_by net_cost 0 (Host.save_tokens W h a r).
Proof. unfold Host.save_tokens. grows. Qed.

Lemma write_save_tokens W h a r :
  grows_by write_cost 1 (Host.save_tokens W h a r).
Proof. unfold Host.save_tokens. grows. Qed.
#[local] Hint Resolve net_save_tokens write_save_tokens : grows.

Lemma net_refresh W h : grows_by net_cost 1 (Host.refresh_access_token W h).
Proof. unfold Host.refresh_access_token. grows. Qed.

Lemma write_refresh W h :
  grows_by write_cost 1 (Host.refresh_access_token W h).
Proof. unfold Host.refresh_access_token. grows. Qed.
#[local] Hint Resolve net_refresh write_refresh : grows.

Lemma net_refresh_if_needed W h :
  grows_by net_cost 2 (Host.refresh_if_needed W h).
Proof. unfold Host.refresh_if_needed. grows. Qed.

Lemma write_refresh_if_needed W h :
  grows_by write_cost 1 (Host.refresh_if_needed W h).
Proof. unfold Host.refresh_if_needed. grows. Qed.

Lemma net_log_outcome h steps date r :
  grows_by net_cost 0 (Host.log_outcome h steps date r).
Proof. unfold Host.log_outcome. grows. Qed.

Lemma write_log_outcome h steps date r :
  grows_by write_cost 0 (Host.log_outcome h steps date r).
Proof. unfold Host.log_outcome. grows. Qed.
#[local] Hint Resolve net_refresh_if_needed write_refresh_if_needed
  net_log_outcome write_log_outcome : grows.

Lemma net_log_steps W h steps date start :
  grows_by net_cost 3 (Host.log_steps W h steps date start).
Proof. unfold Host.log_steps, Host.submit. grows. Qed.

Lemma write_log_steps W h steps date start :
  grows_by write_cost 1 (Host.log_steps W h steps date start).
Proof. unfold Host.log_steps, Host.submit. grows. Qed.

Lemma net_init W : grows_by net_cost 0 (Host.init W).
Proof. unfold Host.init, Host.load_config, Host.load_tokens. grows. Qed.

Lemma write_init W : grows_by write_cost 0 (Host.init W).
Proof. unfold Host.init, Host.load_config, Host.load_tokens. grows. Qed.
#[local] Hint Resolve net_log_steps write_log_steps net_init write_init : grows.

Lemma net_main W : grows_by net_cost 5 (Host.main W).
Proof. unfold Host.main. grows. Qed.

Lemma write_main W : grows_by write_cost 2 (Host.main W).
Proof. unfold Host.main. grows. Qed.

(** No run of the Runner makes more than five network calls or writes
    more than two files, whatever the remote side answers; there is no
    retry loop.  Both bounds are reached. *)
Theorem runner_effort_bounded (W : World) (files : gmap string content) :
  (length (net_calls (log (final (Host.main W) (initial files)))) <= 5)%nat /\
  (length (writes (log (final (Host.main W) (initial files)))) <= 2)%nat /\
  length (net_calls (log (final (Host.main busiest)
                            (initial Scenario.files)))) = 5%nat /\
  length (writes (log (final (Host.main busiest)
                         (initial Scenario.files)))) = 2%nat.
Proof.
  split; [| split; [| split; vm_compute; reflexivity]].
  - rewrite <- weight_net_calls. apply (net_main W (initial files)).
  - rewrite <- weight_writes. apply (write_main W (initial files)).
Qed.

(** ** Files the scripts leave alone *)

Section Untouched.
Variables (files : gmap string content) (keep : string -> Prop).

Lemma untouched_print (args : list chunk) :
  preserves (untouched files keep) (print args).
Proof using Type. intros s H. exact H. Qed.

Lemma untouched_emit (e : event) :
  preserves (untouched files keep) (emit e).
Proof using Type. intros s H. exact H. Qed.

Lemma untouched_utcnow (W : World) :
  preserves (untouched files keep) (utcnow W).
Proof using Type. intros s H. exact H. Qed.

Lemma untouched_send (W : World) (r : request) :
  preserves (untouched files keep) (requests_send W r).
Proof using Type.
  intros s H. unfold final, requests_send.
  destruct (send W (calls s) r); exact H.
Qed.

Lemma untouched_dump (p : string) (v : pyval) :
  ~ keep p -> preserves (untouched files keep) (json_dump p v).
Proof using Type.
  intros Hp s H q Hq. unfold final. cbn.
  rewrite lookup_insert_ne; [apply H, Hq | congruence].
Qed.
End Untouched.

#[local] Hint Resolve untouched_print untouched_emit untouched_utcnow
  untouched_send : keeps.

Lemma untouched_save_tokens files W h a r :
  preserves (untouched files not_token_file) (Host.save_tokens W h a r).
Proof.
  unfold Host.save_tokens. keeps.
  apply untouched_dump. unfold not_token_file. auto.
Qed.
#[local] Hint Resolve untouched_save_tokens : keeps.

Lemma untouched_host_main files W :
  preserves (untouched files not_token_file) (Host.main W).
Proof.
  unfold Host.main, Host.init, Host.load_config, Host.load_tokens,
    Host.refresh_if_needed, Host.refresh_access_token, Host.log_steps,
    Host.submit, Host.log_outcome.
  keeps.
Qed.

(** The Runner changes no file but the credential record: any other
    path, the configuration file included, holds after the run what it
    held before. *)
Theorem runner_touches_only_token_file (W : World)
  (files : gmap string content) (p : string) :
  p <> TOKEN_FILE ->
  fs (final (Host.main W) (initial files)) !! p = files !! p.
Proof.
  intros Hp.
  apply (untouched_host_main files W (initial files)); [| exact Hp].
  intros q _. reflexivity.
Qed.

(** ** The Authorizer, case by case *)

Arguments Login.truthy : simpl never.

Lemma append_nonempty (a b : string) :
  a <> EmptyString -> a ++ b <> EmptyString.
Proof. destruct a; [congruence | discriminate]. Qed.

Lemma append_nonempty_r (a b : string) :
  b <> EmptyString -> a ++ b <> EmptyString.
Proof. destruct a; [exact (fun H => H) | discriminate]. Qed.

Lemma unquote_to_bytes_nonempty (c : ascii) (s : string) :
  Login.unquote_to_bytes (String c s) <> EmptyString.
Proof.
  cbn. destruct (Ascii.eqb c "%"); [| discriminate].
  destruct s as [| a [| b rest]]; try discriminate.
  destruct (Login.hex_digit a), (Login.hex_digit b); discriminate.
Qed.

(** Inside a character the decoder owes at least the replacement
    character. *)
Lemma utf8_decode_need (bytes : string) :
  forall n seen lo hi,
    Login.utf8_decode_from (Login.Need n seen lo hi) bytes <> EmptyString.
Proof.
  induction bytes as [| c rest IH]; intros n seen lo hi; [discriminate |].
  cbn [Login.utf8_decode_from Login.utf8_feed].
  destruct ((lo <=? nat_of_ascii c) && (nat_of_ascii c <=? hi))%nat.
  - destruct n as [| [| m]]; cbv beta iota.
    + apply append_nonempty, append_nonempty_r. discriminate.
    + apply append_nonempty, append_nonempty_r. discriminate.
    + apply IH.
  - destruct (Login.utf8_start c) as [out st']. discriminate.
Qed.

Lemma utf8_replace_nonempty (c : ascii) (s : string) :
  Login.utf8_replace (String c s) <> EmptyString.
Proof.
  unfold Login.utf8_replace.
  cbn [Login.utf8_decode_from Login.utf8_feed]. unfold Login.utf8_start.
  repeat match goal with
         | |- context [if ?b then _ else _] => destruct b
         end;
    first [ discriminate | apply utf8_decode_need ].
Qed.

Lemma text_of_latin1_nonempty (c : ascii) (s : string) :
  Login.text_of_latin1 (String c s) <> EmptyString.
Proof.
  cbn [Login.text_of_latin1]. apply append_nonempty.
  unfold Login.utf8_of_latin1.
  destruct (nat_of_ascii c <? 128)%nat; discriminate.
Qed.

(** The first run starts with the first character. *)
Lemma runs_head (c : ascii) (s : string) :
  exists a r rest, Login.runs (String c s) = (a, String c r) :: rest.
Proof.
  cbn [Login.runs]. destruct (Login.runs s) as [| [a r] rest]; [eauto |].
  destruct (Bool.eqb (is_ascii c) a); eauto.
Qed.

Lemma unquote_nonempty (c : ascii) (s : string) :
  Login.unquote (String c s) <> EmptyString.
Proof.
  unfold Login.unquote.
  destruct (Login.has "%" (String c s)); [| apply text_of_latin1_nonempty].
  destruct (runs_head c s) as (a & r & rest & ->).
  cbn [map fold_right]. apply append_nonempty.
  unfold Login.unquote_run. cbn [fst snd]. destruct a.
  - destruct (Login.unquote_to_bytes (String c r)) as [| b bs] eqn:E.
    + destruct (unquote_to_bytes_nonempty c r E).
    + apply utf8_replace_nonempty.
  - apply text_of_latin1_nonempty.
Qed.

Lemma decode_nonempty (raw : string) :
  raw <> EmptyString -> Login.decode raw <> EmptyString.
Proof.
  destruct raw as [| c s]; [congruence |]. intros _.
  unfold Login.decode. cbn [Login.plus_to_space]. apply unquote_nonempty.
Qed.

Lemma parse_field_value (f n v : string) :
  Login.parse_field f = Some (n, v) -> v <> EmptyString.
Proof.
  unfold Login.parse_field.
  destruct (Login.cut "=" f) as [[name raw] |]; [| discriminate].
  destruct (String.eqb raw "") eqn:E; [discriminate |].
  apply String.eqb_neq in E. intros [= _ <-]. apply decode_nonempty, E.
Qed.

Lemma parse_fields_values (fields : list string) (n v : string) :
  In (n, v) (Login.parse_fields fields) -> v <> EmptyString.
Proof.
  induction fields as [| f fields IH]; [intros [] |].
  rewrite parse_fields_cons.
  destruct (Login.parse_field f) as [[n' v'] |] eqn:Hf; [| exact IH].
  intros [[= -> ->] | Hin]; [eapply parse_field_value; eauto | auto].
Qed.

Lemma values_of_in (name v : string) (pairs : list (string * string)) :
  In v (values_of name pairs) -> In (name, v) pairs.
Proof.
  induction pairs as [| [k w] pairs IH]; [intros [] |].
  rewrite values_of_cons.
  destruct (String.eqb name k) eqn:E.
  - apply String.eqb_eq in E. subst k.
    intros [-> | Hin]; [left; reflexivity | right; auto].
  - intros Hin. right. auto.
Qed.

Lemma do_GET_captured (W : World) (path : string) (v : string) :
  fst (Login.do_GET W path None) = Some v -> v <> EmptyString.
Proof.
  rewrite do_GET_values.
  destruct (Login.urlparse_query W path) as [query |]; [| discriminate].
  destruct (values_of "code" (Login.parse_qsl query)) as [| w ws] eqn:Hv;
    [discriminate |].
  intros [= <-].
  apply (parse_fields_values (Login.split "&" query) "code").
  apply values_of_in. unfold Login.parse_qsl in Hv. rewrite Hv. left.
  reflexivity.
Qed.

Lemma truthy_captured (W : World) :
  Login.truthy (captured W) = match captured W with
                              | Some _ => true
                              | None => false
                              end.
Proof.
  unfold captured.
  destruct (listener W) as [| | path]; try reflexivity.
  destruct (fst (Login.do_GET W path None)) as [v |] eqn:Hv; [| reflexivity].
  apply do_GET_captured in Hv. destruct v; [congruence | reflexivity].
Qed.

(** What [except Exception] makes of [main]'s outcome. *)
Lemma script_cases (W : World) (s : State) :
  outcome (Login.script W) s =
    match outcome (Login.main W) s with
    | Raise (Exception _) => Ok tt
    | r => r
    end /\
  fs (final (Login.script W) s) = fs (final (Login.main W) s) /\
  net_calls (log (final (Login.script W) s)) =
    net_calls (log (final (Login.main W) s)) /\
  writes (log (final (Login.script W) s)) =
    writes (log (final (Login.main W) s)).
Proof.
  unfold outcome, final, Login.script.
  destruct (Login.main W s) as [[[] | [[n | msg] | cls]] s1]; cbn;
    rewrite ?net_calls_app, ?writes_app, ?app_nil_r; cbn;
    rewrite ?app_nil_r; repeat split.
Qed.

(** A configuration file that is there but unusable (not JSON, not an
    object, or without client_id or client_secret) makes [main] raise an
    ordinary exception before it does anything. *)
Lemma login_config_unusable (W : World) (files : gmap string content)
  (c : content) :
  files !! CONFIG_FILE = Some c ->
  (forall cfg cid csec,
     c = Json (PDict cfg) ->
     dict_get "client_id" cfg = Some cid ->
     dict_get "client_secret" cfg = Some csec -> False) ->
  exists cls,
    Login.main W (initial files) = (Raise (Exception cls), initial files).
Proof.
  intros Hc Hbad. unfold Login.main, Login.load_config. unfold_prims.
  repeat (progress (cbn; rewrite ?Hc)).
  destruct c as [v | raw]; cbn; [| eauto].
  destruct v; cbn; eauto.
  destruct (dict_get "client_id" d) as [cid |] eqn:H1; cbn; [| eauto].
  destruct (dict_get "client_secret" d) as [csec |] eqn:H2; cbn; [| eauto].
  destruct (Hbad d cid csec eq_refl H1 H2).
Qed.

Section AuthorizerFlow.
Variables (W : World) (files : gmap string content).
Variables (cfg : list (string * pyval)) (cid csec : pyval).

Hypothesis Hcfg : files !! CONFIG_FILE = Some (Json (PDict cfg)).
Hypothesis Hcid : dict_get "client_id" cfg = Some cid.
Hypothesis Hcsec : dict_get "client_secret" cfg = Some csec.

Let redirect : pyval :=
  match dict_get "redirect_uri" cfg with
  | Some uri => uri
  | None => PStr "http://127.0.0.1:8080/"
  end.

(** The listener could not be bound: an ordinary exception, nothing
    sent, nothing written. *)
Lemma login_bind_error :
  listener W = BindError ->
  outcome (Login.main W) (initial files) = Raise (Exception "OSError") /\
  net_calls (log (final (Login.main W) (initial files))) = [] /\
  writes (log (final (Login.main W) (initial files))) = [] /\
  fs (final (Login.main W) (initial files)) = files.
Proof using Hcfg Hcid Hcsec.
  intros Hb.
  unfold outcome, final, Login.main, Login.load_config, Login.await_callback.
  unfold_prims. repeat (progress (cbn; rewrite ?Hcfg, ?Hcid, ?Hcsec, ?Hb)).
  repeat split.
Qed.

Lemma login_main_no_code :
  listener W <> BindError ->
  captured W = None ->
  outcome (Login.main W) (initial files) = Raise (SystemExit (ExitCode 1)) /\
  net_calls (log (final (Login.main W) (initial files))) = [] /\
  writes (log (final (Login.main W) (initial files))) = [] /\
  fs (final (Login.main W) (initial files)) = files.
Proof using Hcfg Hcid Hcsec.
  intros Hb Hn. unfold captured in Hn.
  unfold outcome, final, Login.main, Login.load_config, Login.await_callback.
  unfold_prims. repeat (progress (cbn; rewrite ?Hcfg, ?Hcid, ?Hcsec)).
  destruct (listener W) as [| | path]; [congruence | |]; cbn.
  - repeat split.
  - rewrite Hn. unfold Login.truthy. cbn. repeat split.
Qed.

(** With a code captured, [main] sends exactly the exchange request; it
    ends normally or with an ordinary exception, writes at most the
    credential record, and then only after a usable answer. *)
Lemma login_main_with_code (code : string) :
  captured W = Some code ->
  ordinary (outcome (Login.main W) (initial files)) /\
  net_calls (log (final (Login.main W) (initial files))) =
    [Login.exchange_request cid csec code redirect] /\
  (writes (log (final (Login.main W) (initial files))) = [] /\
   fs (final (Login.main W) (initial files)) = files /\
   outcome (Login.main W) (initial files) <> Ok tt
   \/
   exists record,
     writes (log (final (Login.main W) (initial files))) =
       [(TOKEN_FILE, record)] /\
     fs (final (Login.main W) (initial files)) =
       <[TOKEN_FILE := Json record]> files /\
     outcome (Login.main W) (initial files) = Ok tt).
Proof using Hcfg Hcid Hcsec.
  intros Hcap. pose proof (truthy_captured W) as Ht. rewrite Hcap in Ht.
  unfold captured in Hcap.
  unfold outcome, final, Login.main, Login.load_config, Login.await_callback,
    Login.exchange_code_for_token, Login.save_tokens.
  unfold_prims. repeat (progress (cbn; rewrite ?Hcfg, ?Hcid, ?Hcsec)).
  destruct (listener W) as [| | path]; try discriminate. cbn in *.
  rewrite Hcap, Ht. cbn. fold redirect.
  destruct (send W 0 (Login.exchange_request cid csec code redirect))
    as [r |]; cbn.
  2:{ split; [exact I |]. split; [reflexivity |]. left.
      repeat split. discriminate. }
  destruct ((400 <=? status_code r) && (status_code r <? 600)); cbn.
  { split; [exact I |]. split; [reflexivity |]. left.
    repeat split. discriminate. }
  destruct (body r) as [data | raw]; cbn.
  2:{ split; [exact I |]. split; [reflexivity |]. left.
      repeat split. discriminate. }
  destruct (getitem data "access_token") as [a | e] eqn:Ha; cbn.
  2:{ no_exit. split; [exact I |]. split; [reflexivity |]. left.
      repeat split. discriminate. }
  destruct (getitem_dict _ _ _ Ha) as (d & -> & Hd). cbn.
  split; [exact I |]. split; [reflexivity |]. right.
  eexists. repeat split.
Qed.
End AuthorizerFlow.

Lemma usable_or_not (files : gmap string content) (c : content) :
  files !! CONFIG_FILE = Some c ->
  (exists cfg cid csec, usable_config files cfg cid csec) \/
  (forall cfg cid csec,
     c = Json (PDict cfg) ->
     dict_get "client_id" cfg = Some cid ->
     dict_get "client_secret" cfg = Some csec -> False).
Proof.
  intros Hc. unfold usable_config.
  destruct c as [v | raw]; [| right; discriminate].
  destruct v; try (right; discriminate).
  destruct (dict_get "client_id" d) as [cid |] eqn:H1;
    [| right; intros ? ? ? [= <-]; congruence].
  destruct (dict_get "client_secret" d) as [csec |] eqn:H2;
    [| right; intros ? ? ? [= <-]; congruence].
  left. exists d, cid, csec. auto.
Qed.

Lemma login_main_config_missing (W : World) (files : gmap string content) :
  files !! CONFIG_FILE = None ->
  outcome (Login.main W) (initial files) = Raise (SystemExit (ExitCode 1)) /\
  net_calls (log (final (Login.main W) (initial files))) = [] /\
  writes (log (final (Login.main W) (initial files))) =
    [(CONFIG_FILE, Login.sample_config)] /\
  fs (final (Login.main W) (initial files)) =
    <[CONFIG_FILE := Json Login.sample_config]> files.
Proof.
  intros H. unfold outcome, final, Login.main, Login.load_config.
  unfold_prims. cbn. rewrite H. cbn. repeat split.
Qed.

(** The five ways a run of the Authorizer can go. *)
Lemma login_cases (W : World) (files : gmap string content) :
  let out := outcome (Login.script W) (initial files) in
  let s' := final (Login.script W) (initial files) in
  (files !! CONFIG_FILE = None /\
   out = Raise (SystemExit (ExitCode 1)) /\
   net_calls (log s') = [] /\
   writes (log s') = [(CONFIG_FILE, Login.sample_config)] /\
   fs s' = <[CONFIG_FILE := Json Login.sample_config]> files)
  \/
  ((exists c, files !! CONFIG_FILE = Some c) /\
   (forall cfg cid csec, ~ usable_config files cfg cid csec) /\
   out = Ok tt /\ net_calls (log s') = [] /\ writes (log s') = [] /\
   fs s' = files)
  \/
  ((exists cfg cid csec, usable_config files cfg cid csec) /\
   listener W = BindError /\
   out = Ok tt /\ net_calls (log s') = [] /\ writes (log s') = [] /\
   fs s' = files)
  \/
  ((exists cfg cid csec, usable_config files cfg cid csec) /\
   listener W <> BindError /\ captured W = None /\
   out = Raise (SystemExit (ExitCode 1)) /\
   net_calls (log s') = [] /\ writes (log s') = [] /\ fs s' = files)
  \/
  (exists cfg cid csec code,
     usable_config files cfg cid csec /\
     captured W = Some code /\
     out = Ok tt /\
     net_calls (log s') =
       [Login.exchange_request cid csec code (redirect_of cfg)] /\
     (writes (log s') = [] /\ fs s' = files \/
      exists record,
        writes (log s') = [(TOKEN_FILE, record)] /\
        fs s' = <[TOKEN_FILE := Json record]> files /\
        outcome (Login.main W) (initial files) = Ok tt)).
Proof.
  intros out s'. subst out s'.
  destruct (script_cases W (initial files)) as (Ho & Hf & Hn & Hw).
  rewrite Ho, Hf, Hn, Hw. clear Ho Hf Hn Hw.
  destruct (files !! CONFIG_FILE) as [c |] eqn:Hc.
  2:{ left. split; [reflexivity |].
      destruct (login_main_config_missing W files Hc) as (-> & -> & -> & ->).
      repeat split. }
  right.
  destruct (usable_or_not files c Hc) as [(cfg & cid & csec & Hu) | Hbad].
  2:{ left. destruct (login_config_unusable W files c Hc Hbad) as [cls Hrun].
      unfold outcome, final. rewrite Hrun. cbn.
      split; [eauto |]. split; [| repeat split].
      intros cfg cid csec (H1 & H2 & H3).
      eapply Hbad; eauto. congruence. }
  right.
  assert (Hu' : exists cfg cid csec, usable_config files cfg cid csec)
    by eauto.
  destruct Hu as (Hcfg' & Hcid & Hcsec).
  destruct (listener W) as [| | path] eqn:Hl.
  - left. destruct (login_bind_error W files cfg cid csec Hcfg' Hcid Hcsec Hl)
      as (-> & -> & -> & ->). repeat split; auto.
  - right. left.
    assert (Hb : listener W <> BindError) by congruence.
    assert (Hnone : captured W = None) by (unfold captured; rewrite Hl; auto).
    destruct (login_main_no_code W files cfg cid csec Hcfg' Hcid Hcsec
                Hb Hnone) as (-> & -> & -> & ->).
    rewrite <- Hl. repeat split; auto.
  - right.
    assert (Hb : listener W <> BindError) by congruence.
    destruct (captured W) as [code |] eqn:Hcap.
    + right. exists cfg, cid, csec, code.
      destruct (login_main_with_code W files cfg cid csec Hcfg' Hcid Hcsec
                  code Hcap) as (Hord & -> & Hrest).
      split; [unfold usable_config; auto |]. split; [reflexivity |].
      split.
      { destruct (outcome (Login.main W) (initial files))
          as [[] | [a | cls]]; [reflexivity | destruct Hord | reflexivity]. }
      split; [reflexivity |].
      destruct Hrest as [(Hw & Hf & _) | (record & Hw & Hf & Ho)].
      * left. auto.
      * right. exists record. auto.
    + left.
      destruct (login_main_no_code W files cfg cid csec Hcfg' Hcid Hcsec
                  Hb Hcap) as (-> & -> & -> & ->).
      rewrite <- Hl. repeat split; auto.
Qed.

(** A captured authorization code is never the empty string, and the
    handler answers with the success page whenever it captures one; so
    the Authorizer's "No code received" test fires exactly when nothing
    was captured.  The captured code is text: escaped bytes that are not
    UTF-8 come out as U+FFFD, escaped UTF-8 and unescaped characters as
    themselves. *)
Theorem captured_code_never_blank (W : World) (path : string) :
  (forall v, fst (Login.do_GET W path None) = Some v ->
             v <> EmptyString /\
             snd (Login.do_GET W path None) = Ok Login.success_page) /\
  (Login.truthy (captured W) = false <-> captured W = None) /\
  fst (Login.do_GET W "/?code=%FF" None) = Some Login.replacement /\
  fst (Login.do_GET W "/?code=caf%C3%A9+au%20lait" None) =
    Some ("caf" ++ String "195" (String "169" " au lait")) /\
  fst (Login.do_GET W ("/?code=caf" ++ String "233" "%21") None) =
    Some ("caf" ++ String "195" (String "169" "!")).
Proof.
  split; [| split; [| repeat split]].
  - intros v Hv. split; [apply (do_GET_captured W path v Hv) |].
    rewrite do_GET_values in *.
    destruct (Login.urlparse_query W path) as [query |]; [| discriminate].
    destruct (values_of "code" _); [discriminate | reflexivity].
  - rewrite truthy_captured. destruct (captured W); split; congruence.
Qed.

(** The Authorizer exits with status 0 or 1, and with 1 in exactly two
    situations: the configuration file is missing, or the configuration
    is usable, the listener was bound, and no code was captured.  Every
    other failure (unusable configuration, bind error, refused exchange,
    unreadable token response) ends with status 0. *)
Theorem authorizer_exit_status (W : World) (files : gmap string content) :
  let status := exit_status (outcome (Login.script W) (initial files)) in
  (status = 0 \/ status = 1) /\
  (status = 1 <->
   files !! CONFIG_FILE = None \/
   ((exists cfg cid csec, usable_config files cfg cid csec) /\
    listener W <> BindError /\ captured W = None)).
Proof.
  cbn zeta.
  destruct (login_cases W files)
    as [(Hc & -> & _) |
        [((c & Hc) & Hbad & -> & _) |
         [(Hu & Hb & -> & _) |
          [(Hu & Hb & Hn & -> & _) |
           (cfg & cid & csec & code & Hu & Hcap & -> & _)]]]]; cbn.
  - split; [auto |]. split; auto.
  - split; [auto |]. split; [discriminate |].
    intros [H | ((cfg & cid & csec & Hu) & _)]; [congruence |].
    destruct (Hbad _ _ _ Hu).
  - split; [auto |]. split; [discriminate |].
    intros [H | (_ & Hnb & _)]; [| congruence].
    destruct Hu as (cfg & cid & csec & Hcfg & _). congruence.
  - split; [auto |]. split; auto.
  - split; [auto |]. split; [discriminate |].
    intros [H | (_ & _ & Hn)]; [| congruence].
    destruct Hu as (Hcfg & _). congruence.
Qed.

(** The Authorizer contacts the token endpoint at most once, and only
    with a captured, non-empty code: its network calls are none, or the
    one exchange request built from the configuration and that code. *)
Theorem authorizer_calls_need_code (W : World) (files : gmap string content) :
  let sent := net_calls (log (final (Login.script W) (initial files))) in
  sent = [] \/
  exists cfg cid csec code,
    usable_config files cfg cid csec /\
    captured W = Some code /\
    code <> EmptyString /\
    sent = [Login.exchange_request cid csec code (redirect_of cfg)].
Proof.
  cbn zeta.
  destruct (login_cases W files)
    as [(_ & _ & -> & _) |
        [(_ & _ & _ & -> & _) |
         [(_ & _ & _ & -> & _) |
          [(_ & _ & _ & _ & -> & _) |
           (cfg & cid & csec & code & Hu & Hcap & _ & -> & _)]]]]; auto.
  right. exists cfg, cid, csec, code.
  split; [exact Hu |]. split; [exact Hcap |]. split; [| reflexivity].
  pose proof (truthy_captured W) as Ht. rewrite Hcap in Ht.
  intros ->. discriminate.
Qed.

(** The Authorizer writes at most one file per run: the sample
    configuration when the configuration file is missing, or the
    credential record, and that one only in a run that ends normally.
    An existing configuration file is never modified, and no other path
    is touched. *)
Theorem authorizer_writes_one_file (W : World) (files : gmap string content) :
  let s' := final (Login.script W) (initial files) in
  (length (writes (log s')) <= 1)%nat /\
  (forall v, In (CONFIG_FILE, v) (writes (log s')) ->
             files !! CONFIG_FILE = None /\ v = Login.sample_config) /\
  (forall v, In (TOKEN_FILE, v) (writes (log s')) ->
             outcome (Login.script W) (initial files) = Ok tt /\
             fs s' !! TOKEN_FILE = Some (Json v)) /\
  (forall p, p <> TOKEN_FILE ->
             (p <> CONFIG_FILE \/ files !! CONFIG_FILE <> None) ->
             fs s' !! p = files !! p).
Proof.
  cbn zeta.
  destruct (login_cases W files)
    as [(Hc & Ho & _ & -> & ->) |
        [(_ & _ & Ho & _ & -> & ->) |
         [(_ & _ & Ho & _ & -> & ->) |
          [(_ & _ & _ & Ho & _ & -> & ->) |
           (cfg & cid & csec & code & Hu & Hcap & Ho & _ &
            [(-> & ->) | (record & -> & -> & _)])]]]]; cbn.
  - split; [lia |]. split; [| split].
    + intros v [[= <-] | []]. auto.
    + intros v [[=] | []].
    + intros p _ [Hp | Hp]; [| congruence].
      apply lookup_insert_ne. congruence.
  - split; [lia |]. repeat split; intros; contradiction || reflexivity.
  - split; [lia |]. repeat split; intros; contradiction || reflexivity.
  - split; [lia |]. repeat split; intros; contradiction || reflexivity.
  - split; [lia |]. repeat split; intros; contradiction || reflexivity.
  - split; [lia |]. split; [| split].
    + intros v [[=] | []].
    + intros v [[= <-] | []]. split; [exact Ho | apply lookup_insert_eq].
    + intros p Hp _. apply lookup_insert_ne. congruence.
Qed.

(** On a usable configuration, a captured code and an exchange answered
    outside 400..599 with a JSON object that has an access_token, the
    Authorizer stores the six-key credential record built from the
    answer (absent keys as None, updated_at from the clock), leaves the
    configuration file alone and ends with status 0. *)
Theorem authorizer_stores_tokens (W : World) (files : gmap string content)
  (cfg d : list (string * pyval)) (cid csec a : pyval) (code : string)
  (r : response) :
  let s' := final (Login.script W) (initial files) in
  let field k := default PNone (dict_get k d) in
  usable_config files cfg cid csec ->
  captured W = Some code ->
  send W 0 (Login.exchange_request cid csec code (redirect_of cfg)) = Some r ->
  status_code r < 400 \/ 600 <= status_code r ->
  body r = Json (PDict d) ->
  dict_get "access_token" d = Some a ->
  outcome (Login.script W) (initial files) = Ok tt /\
  fs s' !! TOKEN_FILE =
    Some (Json (PDict [("access_token", a);
                       ("refresh_token", field "refresh_token");
                       ("scope", field "scope");
                       ("token_type", field "token_type");
                       ("expires_in", field "expires_in");
                       ("updated_at",
                        PStr (isoformat (utcnow_at W 0) ++ "Z"))])) /\
  fs s' !! CONFIG_FILE = files !! CONFIG_FILE /\
  last (log s') =
    Some (Printed
            [Lit "Done. You can upload fitbit_tokens.json to your host server."]).
Proof.
  intros s' field (Hcfg & Hcid & Hcsec) Hcap Hs Hst Hb Ha. subst s' field.
  pose proof (truthy_captured W) as Ht. rewrite Hcap in Ht.
  unfold captured in Hcap. unfold redirect_of in Hs.
  unfold outcome, final, Login.script, Login.main, Login.load_config,
    Login.await_callback, Login.exchange_code_for_token, Login.save_tokens.
  unfold_prims. repeat (progress (cbn; rewrite ?Hcfg, ?Hcid, ?Hcsec)).
  destruct (listener W) as [| | path]; try discriminate. cbn in *.
  rewrite Hcap, Ht. cbn. rewrite Hs. cbn.
  replace ((400 <=? status_code r) && (status_code r <? 600)) with false
    by (destruct Hst; lia).
  cbn. rewrite Hb. cbn. rewrite Ha. cbn.
  rewrite lookup_insert_eq.
  rewrite lookup_insert_ne by discriminate.
  rewrite ?Hcfg.
  destruct (dict_get "refresh_token" d), (dict_get "scope" d),
    (dict_get "token_type" d), (dict_get "expires_in" d); repeat split.
Qed.

(** ** Loading the Runner's two files *)

(** [FitbitHost()] succeeds exactly when the configuration file is a
    JSON object with client_id and client_secret whose daily_steps
    (10000 when absent) converts with [int], and the credential file is
    a JSON object; the host then holds these values, "08:00" for a
    missing start_time and None for a missing access or refresh token.
    On ASCII text the conversion skips blanks (not other control
    characters) around an optionally signed run of digits, whatever the
    interpreter. *)
Theorem host_loads_iff (W : World) (s : State) (h : Host.FitbitHost) :
  (outcome (Host.init W) s = Ok h <->
   exists cfg tok cid csec n,
     fs s !! CONFIG_FILE = Some (Json (PDict cfg)) /\
     fs s !! TOKEN_FILE = Some (Json (PDict tok)) /\
     dict_get "client_id" cfg = Some cid /\
     dict_get "client_secret" cfg = Some csec /\
     int (int_of_text W) (default (PInt 10000) (dict_get "daily_steps" cfg)) =
       Ok n /\
     h = {| Host.client_id := cid;
            Host.client_secret := csec;
            Host.daily_steps := n;
            Host.start_time :=
              default (PStr "08:00") (dict_get "start_time" cfg);
            Host.access_token := default PNone (dict_get "access_token" tok);
            Host.refresh_token :=
              default PNone (dict_get "refresh_token" tok);
            Host.token_url := "https://api.fitbit.com/oauth2/token";
            Host.base_api := "https://api.fitbit.com/1/user/-" |}) /\
  int (int_of_text W) (PStr " 12000 ") = Ok 12000 /\
  int (int_of_text W) (PStr "-1_000") = Ok (-1000) /\
  int (int_of_text W) (PStr (String "028" "5")) =
    Raise (Exception "ValueError") /\
  int (int_of_text W) (PStr "12.5") = Raise (Exception "ValueError") /\
  int (int_of_text W) (PStr "") = Raise (Exception "ValueError").
Proof.
  split; [| repeat split].
  split.
  - intros Hi.
    destruct (init_inv W s h Hi)
      as (cfg & tok & Hc & Ht & Hcid & Hcsec & Hn & Hst & Ha & Hr).
    destruct (init_api W s h Hi) as [Hu Hb].
    exists cfg, tok, (Host.client_id h), (Host.client_secret h),
      (Host.daily_steps h).
    repeat split; auto.
    destruct h; cbn in *. congruence.
  - intros (cfg & tok & cid & csec & n & Hc & Ht & Hcid & Hcsec & Hn & ->).
    unfold outcome, Host.init, Host.load_config, Host.load_tokens.
    unfold_prims.
    repeat (progress (cbn; rewrite ?Hc, ?Ht, ?Hcid, ?Hcsec)).
    unfold default in Hn. cbn in Hn. rewrite Hn. cbn.
    repeat (progress (cbn; rewrite ?Hc, ?Ht)).
    destruct (dict_get "start_time" cfg), (dict_get "access_token" tok),
      (dict_get "refresh_token" tok); reflexivity.
Qed.

(** A configuration object without client_id or client_secret stops
    both scripts before any network call, but not alike: the Runner dies
    of the uncaught KeyError with status 1, the Authorizer prints the
    error and exits with status 0. *)
Theorem missing_client_key (W : World) (files : gmap string content)
  (cfg : list (string * pyval)) :
  files !! CONFIG_FILE = Some (Json (PDict cfg)) ->
  dict_get "client_id" cfg = None \/ dict_get "client_secret" cfg = None ->
  outcome (Host.main W) (initial files) = Raise (Exception "KeyError") /\
  exit_status (outcome (Host.main W) (initial files)) = 1 /\
  log (final (Host.main W) (initial files)) = [] /\
  outcome (Login.script W) (initial files) = Ok tt /\
  exit_status (outcome (Login.script W) (initial files)) = 0 /\
  log (final (Login.script W) (initial files)) =
    [Printed [Lit "Error:"; ExnStr "KeyError"]].
Proof.
  intros Hc Hmiss.
  unfold outcome, final, Host.main, Host.init, Host.load_config,
    Login.script, Login.main, Login.load_config.
  unfold_prims. repeat (progress (cbn; rewrite ?Hc)).
  destruct (dict_get "client_id" cfg) as [cid |] eqn:H1; cbn.
  - destruct Hmiss as [Hm | Hm]; [discriminate |]. rewrite Hm. cbn.
    repeat split.
  - repeat split.
Qed.

(** * Instances of the further properties *)

Lemma authorizer_record_loads_witness :
  exists d a,
    PDict [("access_token", PStr "A1")] = PDict d /\
    dict_get "access_token" d = Some a /\
    outcome Host.load_tokens
      (final (Login.save_tokens Scenario.silent
                (PDict [("access_token", PStr "A1")])) (initial ∅)) =
      Ok (a, default PNone (dict_get "refresh_token" d)).
Proof.
  apply (proj1 (authorizer_record_loads Scenario.silent
                  (PDict [("access_token", PStr "A1")]) (initial ∅))).
  vm_compute. reflexivity.
Defined.

Lemma failed_refresh_changes_nothing_witness :
  fs (final (Host.refresh_access_token
               (Scenario.scripted [Scenario.reply 400 (PDict [])] Silence)
               Scenario.host) (initial Scenario.files)) = Scenario.files.
Proof.
  apply (failed_refresh_changes_nothing
           (Scenario.scripted [Scenario.reply 400 (PDict [])] Silence)
           Scenario.host (initial Scenario.files)).
  intros h'. vm_compute. discriminate.
Defined.

Lemma rejected_entry_not_retried_witness :
  outcome (Host.log_steps
             (Scenario.scripted [Scenario.reply 500 (PDict [])] Silence)
             Scenario.host None None None) (initial Scenario.files) =
    Ok (false, Scenario.host).
Proof.
  apply (rejected_entry_not_retried
           (Scenario.scripted [Scenario.reply 500 (PDict [])] Silence)
           Scenario.host (initial Scenario.files) None None None 8%float
           (Scenario.reply 500 (PDict [])));
    try (vm_compute; reflexivity); cbn; lia.
Defined.

Lemma oversized_steps_send_nothing_witness :
  outcome (Host.log_steps Scenario.silent Scenario.host (Some (2 ^ 1024))
             None None) (initial Scenario.files) =
    Raise (Exception "OverflowError").
Proof.
  apply (oversized_steps_send_nothing Scenario.silent Scenario.host
           (initial Scenario.files) (Some (2 ^ 1024)) None None).
  cbn [effective_steps]. lia.
Defined.

Lemma duration_at_least_one_minute_witness :
  1 <= Host.duration_minutes (-5) <= Host.duration_minutes 250.
Proof.
  apply (duration_at_least_one_minute (-5) 250). lia.
Defined.

Lemma expired_token_run_witness :
  outcome (Host.main Scenario.refresh_with_token) (initial Scenario.files) =
    Ok tt /\
  persisted "refresh_token"
    (final (Host.main Scenario.refresh_with_token) (initial Scenario.files)) =
    Some (PStr "R2").
Proof.
  destruct (expired_token_run Scenario.refresh_with_token Scenario.files
              Scenario.host 8%float
              (Scenario.reply 401 (PDict []))
              (Scenario.reply 200 (PDict [("access_token", PStr "A2");
                                          ("refresh_token", PStr "R2")]))
              (Scenario.reply 200 (PDict []))
              [("access_token", PStr "A2"); ("refresh_token", PStr "R2")]
              [] (PStr "A2"))
    as (Ho & _ & _ & _ & Hr & _);
    try (vm_compute; reflexivity).
  - left. reflexivity.
  - split; [exact Ho | exact Hr].
Defined.

Lemma accepted_entry_unreadable_answer_witness :
  exit_status
    (outcome (Host.main
                (Scenario.scripted
                   [Scenario.reply 200 (PDict []);
                    {| status_code := 201; body := Garbled "<html>" |}]
                   Silence))
       (initial Scenario.files)) = 1.
Proof.
  apply (accepted_entry_unreadable_answer
           (Scenario.scripted
              [Scenario.reply 200 (PDict []);
               {| status_code := 201; body := Garbled "<html>" |}]
              Silence)
           Scenario.files Scenario.host 8%float
           (Scenario.reply 200 (PDict []))
           {| status_code := 201; body := Garbled "<html>" |} "<html>");
    try (vm_compute; reflexivity).
  - cbn. lia.
  - right. reflexivity.
Defined.

Lemma runner_touches_only_token_file_witness :
  fs (final (Host.main Scenario.refresh_with_token) (initial Scenario.files))
    !! CONFIG_FILE = Scenario.files !! CONFIG_FILE.
Proof.
  apply (runner_touches_only_token_file Scenario.refresh_with_token
           Scenario.files CONFIG_FILE).
  discriminate.
Defined.

Lemma captured_code_never_blank_witness :
  "abc" <> EmptyString /\
  snd (Login.do_GET Scenario.silent "/?code=abc" None) = Ok Login.success_page.
Proof.
  apply (proj1 (captured_code_never_blank Scenario.silent "/?code=abc") "abc").
  vm_compute. reflexivity.
Defined.

Lemma authorizer_exit_status_witness :
  exit_status (outcome (Login.script Scenario.silent) (initial ∅)) = 1.
Proof.
  apply (proj2 (authorizer_exit_status Scenario.silent ∅)).
  left. vm_compute. reflexivity.
Defined.

Lemma authorizer_writes_one_file_witness :
  fs (final (Login.script Scenario.exchange_refused) (initial Scenario.files))
    !! CONFIG_FILE = Scenario.files !! CONFIG_FILE.
Proof.
  apply (proj2 (proj2 (proj2
           (authorizer_writes_one_file Scenario.exchange_refused
              Scenario.files))) CONFIG_FILE).
  - discriminate.
  - right. vm_compute. discriminate.
Defined.

Lemma authorizer_stores_tokens_witness :
  let W := Scenario.scripted
             [Scenario.reply 200 (PDict [("access_token", PStr "A1");
                                         ("refresh_token", PStr "R1")])]
             (GetRequest "/?code=abc") in
  outcome (Login.script W) (initial Scenario.only_config) = Ok tt.
Proof.
  intros W.
  apply (authorizer_stores_tokens W Scenario.only_config
           [("client_id", PStr "CID"); ("client_secret", PStr "SEC")]
           [("access_token", PStr "A1"); ("refresh_token", PStr "R1")]
           (PStr "CID") (PStr "SEC") (PStr "A1") "abc"
           (Scenario.reply 200 (PDict [("access_token", PStr "A1");
                                       ("refresh_token", PStr "R1")])));
    try (vm_compute; reflexivity).
  - repeat split; vm_compute; reflexivity.
  - left. cbn. lia.
Defined.

Lemma host_loads_iff_witness :
  exists cfg tok cid csec n,
    fs (initial Scenario.files) !! CONFIG_FILE = Some (Json (PDict cfg)) /\
    fs (initial Scenario.files) !! TOKEN_FILE = Some (Json (PDict tok)) /\
    dict_get "client_id" cfg = Some cid /\
    dict_get "client_secret" cfg = Some csec /\
    int (int_of_text Scenario.silent)
      (default (PInt 10000) (dict_get "daily_steps" cfg)) = Ok n /\
    Scenario.host =
      {| Host.client_id := cid;
         Host.client_secret := csec;
         Host.daily_steps := n;
         Host.start_time :=
           default (PStr "08:00") (dict_get "start_time" cfg);
         Host.access_token := default PNone (dict_get "access_token" tok);
         Host.refresh_token := default PNone (dict_get "refresh_token" tok);
         Host.token_url := "https://api.fitbit.com/oauth2/token";
         Host.base_api := "https://api.fitbit.com/1/user/-" |}.
Proof.
  apply (proj1 (proj1 (host_loads_iff Scenario.silent
                         (initial Scenario.files) Scenario.host))).
  vm_compute. reflexivity.
Defined.

Lemma missing_client_key_witness :
  exit_status
    (outcome (Host.main Scenario.silent)
       (initial (<[CONFIG_FILE := Json (PDict [])]> Scenario.files))) = 1 /\
  exit_status
    (outcome (Login.script Scenario.silent)
       (initial (<[CONFIG_FILE := Json (PDict [])]> Scenario.files))) = 0.
Proof.
  destruct (missing_client_key Scenario.silent
              (<[CONFIG_FILE := Json (PDict [])]> Scenario.files) [])
    as (_ & Hh & _ & _ & Hl & _).
  - vm_compute. reflexivity.
  - left. reflexivity.
  - split; [exact Hh | exact Hl].
Defined.
